(** * The colormap dialog of silx (silx/gui/plot/ColormapDialog.py)

  A shallow embedding of [_FloatEdit] and [ColormapDialog]: the dialog keeps
  its colormap description in its widgets (a combo box, two radio buttons in
  an exclusive group, a check box and two line edits holding text), so the
  model keeps the widgets' state and reads the description back from them,
  as [getColormap] does.

  - [PyFloat]: Python floats (IEEE 754 binary64), ['%g' % x] and [float(s)];
  - [PyStr]: the string methods used to label the combo box;
  - [Qt]: the state of the toolkit widgets the dialog owns;
  - [Plot]: the curves and markers the dialog puts on its [PlotWidget];
  - [ColormapDialog]: the dialog's methods, slots and the user's actions. *)

From Stdlib Require Import ZArith Ascii String List Bool Lia.
From Stdlib Require Import Floats.SpecFloat.
From stdpp Require Import base option gmap strings list.

(** ** Python strings *)

Module PyStr.
Local Open Scope char_scope.

(** Text is ASCII throughout. [c.isspace()]: the space, the controls 9
  to 13 and the separators 28 to 31. *)
Definition is_space (c : ascii) : bool :=
  let n := nat_of_ascii c in
  ((9 <=? n)%nat && (n <=? 13)%nat) || ((28 <=? n)%nat && (n <=? 32)%nat).

Definition lower_char (c : ascii) : ascii :=
  let n := nat_of_ascii c in
  if (65 <=? n)%nat && (n <=? 90)%nat then ascii_of_nat (n + 32) else c.

Definition upper_char (c : ascii) : ascii :=
  let n := nat_of_ascii c in
  if (97 <=? n)%nat && (n <=? 122)%nat then ascii_of_nat (n - 32) else c.

(** [s.lower()] *)
Definition lower (s : string) : string :=
  string_of_list_ascii (map lower_char (list_ascii_of_string s)).

(** [s.split()]: the maximal runs of characters that are not white
    space. [w] is the run being read, last character first. *)
Fixpoint split_chars (w l : list ascii) : list (list ascii) :=
  match l with
  | [] => match w with [] => [] | _ => [rev w] end
  | c :: r =>
      if is_space c then
        match w with
        | [] => split_chars [] r
        | _ => rev w :: split_chars [] r
        end
      else split_chars (c :: w) r
  end.

Definition split (s : string) : list string :=
  map string_of_list_ascii (split_chars [] (list_ascii_of_string s)).

(** [sep.join(ws)] *)
Fixpoint join (sep : string) (ws : list string) : string :=
  match ws with
  | [] => EmptyString
  | [w] => w
  | w :: r => (w ++ sep ++ join sep r)%string
  end.

(** [w[0].upper() + w[1:]], for a word [w] that is not empty. *)
Definition upper_first (w : string) : string :=
  match w with
  | EmptyString => EmptyString
  | String c r => String (upper_char c) r
  end.

(** [' '.join(w[0].upper() + w[1:] for w in s.split())] *)
Definition capitalize_words (s : string) : string :=
  join " " (map upper_first (split s)).
End PyStr.

(** ** Python floats *)

Module PyFloat.
Local Open Scope char_scope.
Local Open Scope Z_scope.

(** A Python float is a binary64 number: 53 bits of precision, infinities
    at exponent 1024. *)
Definition t : Type := spec_float.
Definition prec : Z := 53.
Definition emax : Z := 1024.

Definition nan : t := S754_nan.
Definition zero : t := S754_zero false.

Definition add : t -> t -> t := SFadd prec emax.
Definition sub : t -> t -> t := SFsub prec emax.
Definition mul : t -> t -> t := SFmul prec emax.
Definition div : t -> t -> t := SFdiv prec emax.
Definition abs : t -> t := SFabs.
(** [x < y], [x <= y] and [x == y]: all false when an operand is a NaN. *)
Definition lt : t -> t -> bool := SFltb.
Definition le : t -> t -> bool := SFleb.
Definition eqb : t -> t -> bool := SFeqb.

(** *** Decimal to binary

    [of_decimal neg d k] is the float nearest to [d * 10 ^ k] (ties to
    even), negated when [neg]: Python's [float] rounds correctly. *)
Definition of_decimal (neg : bool) (d k : Z) : t :=
  match d with
  | Z0 => S754_zero neg
  | Zpos p =>
      if 0 <=? k then
        binary_normalize prec emax (cond_Zopp neg (Zpos p * 10 ^ k)) 0 neg
      else
        let '(q, e, l) :=
          SFdiv_core_binary prec emax (Zpos p) 0 (10 ^ (- k)) 0 in
        binary_round_aux prec emax neg q e l
  | Zneg _ => S754_nan
  end.

(** *** Characters *)

Definition is_digit (c : ascii) : bool :=
  let n := nat_of_ascii c in (48 <=? n)%nat && (n <=? 57)%nat.

Definition digit_val (c : ascii) : Z := Z.of_nat (nat_of_ascii c) - 48.

Definition digit_char (d : Z) : ascii :=
  match d with
  | 0 => "0" | 1 => "1" | 2 => "2" | 3 => "3" | 4 => "4"
  | 5 => "5" | 6 => "6" | 7 => "7" | 8 => "8" | _ => "9"
  end.

(** *** ['%g' % x]

    Six significant digits of the exact value, rounded half to even;
    fixed notation when the decimal exponent [x] has [-4 <= x < 6], else
    exponent notation with at least two exponent digits; trailing zeros
    of the fraction removed. *)

Fixpoint uint_chars (u : Decimal.uint) : list ascii :=
  match u with
  | Decimal.Nil => []
  | Decimal.D0 u => "0" :: uint_chars u
  | Decimal.D1 u => "1" :: uint_chars u
  | Decimal.D2 u => "2" :: uint_chars u
  | Decimal.D3 u => "3" :: uint_chars u
  | Decimal.D4 u => "4" :: uint_chars u
  | Decimal.D5 u => "5" :: uint_chars u
  | Decimal.D6 u => "6" :: uint_chars u
  | Decimal.D7 u => "7" :: uint_chars u
  | Decimal.D8 u => "8" :: uint_chars u
  | Decimal.D9 u => "9" :: uint_chars u
  end.

(** The number of decimal digits of a positive integer. *)
Definition ndigits (n : Z) : Z :=
  match n with
  | Zpos p => Z.of_nat (Decimal.nb_digits (Pos.to_uint p))
  | _ => 0
  end.

(** [floor (log10 (num / den))], for positive [num] and [den]. *)
Definition exponent10 (num den : Z) : Z :=
  if den <=? num then ndigits (num / den) - 1
  else - ndigits ((den + num - 1) / num - 1).

Definition round_half_even (n m : Z) : Z :=
  let q := n / m in
  match 2 * (n mod m) ?= m with
  | Lt => q
  | Gt => q + 1
  | Eq => if Z.even q then q else q + 1
  end.

(** The [p] significant digits of [num / den], as an integer of [p]
    digits, and the decimal exponent of the first one. *)
Definition significand (p num den : Z) : Z * Z :=
  let x := exponent10 num den in
  let sc := p - 1 - x in
  let d :=
    if 0 <=? sc then round_half_even (num * 10 ^ sc) den
    else round_half_even num (den * 10 ^ (- sc)) in
  if d =? 10 ^ p then (10 ^ (p - 1), x + 1) else (d, x).

(** The [p] decimal digits of [d], most significant first. *)
Definition digits_of (p : nat) (d : Z) : list ascii :=
  map (fun i => digit_char (d / 10 ^ Z.of_nat i mod 10)) (rev (seq 0 p)).

Fixpoint rstrip_zeros (l : list ascii) : list ascii :=
  match l with
  | [] => []
  | c :: r =>
      match rstrip_zeros r with
      | [] => if Ascii.eqb c "0" then [] else [c]
      | r' => c :: r'
      end
  end.

(** A decimal numeral: integer digits, fraction digits and exponent
    (its sign, true for [-], and its digits). *)
Record numeral : Type := Numeral {
  int_part : list ascii;
  frac_part : list ascii;
  exp_part : option (bool * list ascii)
}.

Definition render (n : numeral) : list ascii :=
  int_part n
  ++ match frac_part n with [] => [] | f => "." :: f end
  ++ match exp_part n with
     | None => []
     | Some (s, ds) => "e" :: (if s then "-" else "+") :: ds
     end.

(** A numeral [float] reads: digits only, at least one before the point
    and at least one in the exponent. *)
Definition numeral_wf (n : numeral) : Prop :=
  Forall (fun c => is_digit c = true) (int_part n)
  /\ int_part n <> []
  /\ Forall (fun c => is_digit c = true) (frac_part n)
  /\ match exp_part n with
     | None => True
     | Some (_, ds) => Forall (fun c => is_digit c = true) ds /\ ds <> []
     end.

Definition exponent_digits (n : Z) : list ascii :=
  match n / 100 with
  | Zpos h => uint_chars (Pos.to_uint h)
  | _ => []
  end ++ [digit_char (n / 10 mod 10); digit_char (n mod 10)].

Definition g_numeral (num den : Z) : numeral :=
  let '(d, x) := significand 6 num den in
  let ds := digits_of 6 d in
  if (-4 <=? x) && (x <? 6) then
    if 0 <=? x then
      let n := Z.to_nat (x + 1) in
      Numeral (firstn n ds) (rstrip_zeros (skipn n ds)) None
    else
      Numeral ["0"]
        (rstrip_zeros (repeat "0" (Z.to_nat (- x - 1)) ++ ds)) None
  else
    Numeral (firstn 1 ds) (rstrip_zeros (skipn 1 ds))
      (Some (x <? 0, exponent_digits (Z.abs x))).

Definition format_g_chars (x : t) : list ascii :=
  match x with
  | S754_nan => ["n"; "a"; "n"]
  | S754_infinity s => (if s then ["-"] else []) ++ ["i"; "n"; "f"]
  | S754_zero s => (if s then ["-"] else []) ++ ["0"]
  | S754_finite s m e =>
      (if s then ["-"] else [])
      ++ render (if 0 <=? e then g_numeral (Zpos m * 2 ^ e) 1
                 else g_numeral (Zpos m) (2 ^ (- e)))
  end.

Definition format_g (x : t) : string :=
  string_of_list_ascii (format_g_chars x).

(** *** [float(s)]

    Surrounding white space is ignored; then an optional sign and
  either [inf], [infinity] or [nan] in any case, or digits with an
  optional point and an optional exponent, at least one digit in all,
  read as the nearest float. Anything else is a [ValueError] ([None]).
  This is the grammar of the Python versions the source was written
  for; the underscores later versions allow between digits are not
  part of it. *)

Fixpoint span_digits (l : list ascii) : list ascii * list ascii :=
  match l with
  | [] => ([], [])
  | c :: r =>
      if is_digit c then
        let '(ds, rest) := span_digits r in (c :: ds, rest)
      else ([], l)
  end.

Definition digits_val (l : list ascii) : Z :=
  fold_left (fun a c => 10 * a + digit_val c) l 0.

Definition read_sign (l : list ascii) : bool * list ascii :=
  match l with
  | "-" :: r => (true, r)
  | "+" :: r => (false, r)
  | _ => (false, l)
  end.

Definition parse_exponent (l : list ascii) : option (Z * list ascii) :=
  match l with
  | [] => Some (0, [])
  | c :: r =>
      if Ascii.eqb (PyStr.lower_char c) "e" then
        let '(s, r1) := read_sign r in
        let '(ds, r2) := span_digits r1 in
        match ds with
        | [] => None
        | _ => Some (cond_Zopp s (digits_val ds), r2)
        end
      else Some (0, l)
  end.

Definition parse_decimal (neg : bool) (l : list ascii) : option t :=
  let '(ip, r1) := span_digits l in
  let '(fp, r2) :=
    match r1 with
    | "." :: r => span_digits r
    | _ => ([], r1)
    end in
  match ip ++ fp with
  | [] => None
  | ds =>
      match parse_exponent r2 with
      | Some (x, []) =>
          Some (of_decimal neg (digits_val ds) (x - Z.of_nat (length fp)))
      | _ => None
      end
  end.

Definition parse_special (neg : bool) (l : list ascii) : option t :=
  let w := string_of_list_ascii (map PyStr.lower_char l) in
  if String.eqb w "inf" || String.eqb w "infinity" then
    Some (S754_infinity neg)
  else if String.eqb w "nan" then Some S754_nan
  else None.

(** The white space [float] ignores: the space and the controls 9 to 13. *)
Definition is_space (c : ascii) : bool :=
  let n := nat_of_ascii c in
  (n =? 32)%nat || ((9 <=? n)%nat && (n <=? 13)%nat).

Fixpoint lstrip (l : list ascii) : list ascii :=
  match l with
  | c :: r => if is_space c then lstrip r else l
  | [] => []
  end.

Definition strip (l : list ascii) : list ascii :=
  rev (lstrip (rev (lstrip l))).

Definition parse_chars (l : list ascii) : option t :=
  let '(neg, r) := read_sign (strip l) in
  match r with
  | [] => None
  | c :: _ =>
      if is_digit c || Ascii.eqb c "." then parse_decimal neg r
      else parse_special neg r
  end.

Definition float (s : string) : option t :=
  parse_chars (list_ascii_of_string s).

(** A float literal of the source, such as [1.] or [6.0]. *)
Definition lit (s : string) : t := default nan (float s).
End PyFloat.

(** ** Toolkit widgets

  The state of the Qt widgets the dialog reads and writes, with the
  behaviour Qt documents for the calls the dialog makes. Setting a widget
  from the program emits its state-change signals ([toggled]) and never
  the signals of a user's action ([activated], [clicked],
  [buttonClicked], [textEdited], [editingFinished]). *)

Module Qt.
Local Open Scope Z_scope.

(** [QLineEdit]: the text shown and whether the user may edit it. *)
Record QLineEdit : Type := {
  text : string;
  isEnabled : bool
}.

Definition setText (s : string) (w : QLineEdit) : QLineEdit :=
  {| text := s; isEnabled := isEnabled w |}.

Definition setEnabled (b : bool) (w : QLineEdit) : QLineEdit :=
  {| text := text w; isEnabled := b |}.

(** [QComboBox]: the items in order and the index of the current one,
    [-1] when there is none. *)
Record QComboBox : Type := {
  items : list string;
  currentIndex : Z
}.

(** The first item added to an empty box becomes the current one. *)
Definition addItem (item : string) (w : QComboBox) : QComboBox :=
  {| items := items w ++ [item];
     currentIndex := if currentIndex w <? 0 then 0 else currentIndex w |}.

Definition setCurrentIndex (i : Z) (w : QComboBox) : QComboBox :=
  {| items := items w;
     currentIndex :=
       if (0 <=? i) && (i <? Z.of_nat (length (items w))) then i else -1 |}.

Definition currentText (w : QComboBox) : string :=
  if currentIndex w <? 0 then EmptyString
  else default EmptyString (items w !! Z.to_nat (currentIndex w)).

(** [QAbstractButton.setChecked(checked)] on a button of an exclusive
    [QButtonGroup] of two, given whether [this] button and the [other]
    one are checked; the result is the new pair. Checking a button
    unchecks the other; the checked button of an exclusive group cannot
    be unchecked, so [setChecked(False)] changes nothing. The session of
    the module's docstring shows it: it sets the normalization ['log']
    and prints ['linear']. *)
Definition setChecked_exclusive (checked this other : bool) : bool * bool :=
  if Bool.eqb this checked then (this, other)
  else if checked then (true, false)
  else (this, other).
End Qt.

(** ** The plot

  What the dialog puts on its [PlotWidget]: curves and markers, each
  under a legend; adding under a legend in use replaces the item. *)

Module Plot.
Record curve : Type := {
  curve_x : list PyFloat.t;
  curve_y : list PyFloat.t
}.

Record marker : Type := {
  marker_x : PyFloat.t;
  marker_draggable : bool
}.

Record PlotWidget : Type := {
  curves : gmap string curve;
  markers : gmap string marker
}.

Definition new : PlotWidget := {| curves := ∅; markers := ∅ |}.

Definition addCurve (x y : list PyFloat.t) (legend : string)
    (w : PlotWidget) : PlotWidget :=
  {| curves := <[legend := {| curve_x := x; curve_y := y |}]> (curves w);
     markers := markers w |}.

Definition removeCurve (legend : string) (w : PlotWidget) : PlotWidget :=
  {| curves := delete legend (curves w); markers := markers w |}.

Definition insertXMarker (x : PyFloat.t) (legend : string)
    (draggable : bool) (w : PlotWidget) : PlotWidget :=
  {| curves := curves w;
     markers :=
       <[legend := {| marker_x := x; marker_draggable := draggable |}]>
         (markers w) |}.
End Plot.

(** ** Arrays

  One-dimensional arrays of floats live in a memory and are passed by
  reference, so that the caller of [setHistogram] and the dialog may
  hold the same array or copies of it. *)

Module Numpy.
Abbreviation ndarray := (list PyFloat.t).
Abbreviation ref := positive.
Abbreviation memory := (gmap positive (list PyFloat.t)).

(** A reference no array of the memory has. *)
Definition new_ref (m : memory) : ref := fresh (dom m).

(** [numpy.array(a, copy=True)]: a new array with the contents of [a]. *)
Definition array_copy (a : ref) (m : memory) : option (ref * memory) :=
  match m !! a with
  | Some v => Some (new_ref m, <[new_ref m := v]> m)
  | None => None
  end.

(** [a[i] = v], as the holder of a reference may do at any time. *)
Definition setitem (a : ref) (i : nat) (v : PyFloat.t) (m : memory) : memory :=
  match m !! a with
  | Some arr => <[a := <[i := v]> arr]> m
  | None => m
  end.

(** The builtin [max] over the elements: the first of the largest ones,
    compared with [>]; [None] (a [ValueError]) for no element. *)
Definition max (l : ndarray) : option PyFloat.t :=
  match l with
  | [] => None
  | x :: r => Some (fold_left (fun m y => if PyFloat.lt m y then y else m) r x)
  end.
End Numpy.

(** ** [_FloatEdit]: a line edit holding a float as text *)

Module _FloatEdit.
(** [value]: [float(self.text())]; [None] stands for the [ValueError]
    of a text that is not a number. *)
Definition value (w : Qt.QLineEdit) : option PyFloat.t :=
  PyFloat.float (Qt.text w).

(** [setValue]: [self.setText('%g' % value)]. *)
Definition setValue (v : PyFloat.t) (w : Qt.QLineEdit) : Qt.QLineEdit :=
  Qt.setText (PyFloat.format_g v) w.

(** [_FloatEdit(value)] *)
Definition new (v : option PyFloat.t) : Qt.QLineEdit :=
  let w := {| Qt.text := EmptyString; Qt.isEnabled := true |} in
  match v with
  | Some v => setValue v w
  | None => w
  end.
End _FloatEdit.

(** ** The colormap description: the dict of [getColormap] *)

Module Colormap.
Record t : Type := {
  name : string;
  normalization : string;
  autoscale : bool;
  vmin : PyFloat.t;
  vmax : PyFloat.t;
  colors : Z
}.
End Colormap.

(** ** [ColormapDialog] *)

Module ColormapDialog.
Import Qt.

(** The dialog's attributes, the emissions of [sigColormapChanged] so
    far (oldest first) and the memory holding the arrays. *)
Record state : Type := {
  _histogramData : option (Numpy.ref * Numpy.ref);
  _minMaxWasEdited : bool;
  _dataRange : PyFloat.t * PyFloat.t;
  _comboBoxColormap : QComboBox;
  _normButtonLinear : bool;
  _normButtonLog : bool;
  _rangeAutoscaleButton : bool;
  _startValue : QLineEdit;
  _endValue : QLineEdit;
  _plot : Plot.PlotWidget;
  sigColormapChanged : list Colormap.t;
  memory : Numpy.memory
}.

Definition set_histogramData v (s : state) : state :=
  {| _histogramData := v; _minMaxWasEdited := _minMaxWasEdited s;
     _dataRange := _dataRange s; _comboBoxColormap := _comboBoxColormap s;
     _normButtonLinear := _normButtonLinear s;
     _normButtonLog := _normButtonLog s;
     _rangeAutoscaleButton := _rangeAutoscaleButton s;
     _startValue := _startValue s; _endValue := _endValue s;
     _plot := _plot s; sigColormapChanged := sigColormapChanged s;
     memory := memory s |}.

Definition set_minMaxWasEdited v (s : state) : state :=
  {| _histogramData := _histogramData s; _minMaxWasEdited := v;
     _dataRange := _dataRange s; _comboBoxColormap := _comboBoxColormap s;
     _normButtonLinear := _normButtonLinear s;
     _normButtonLog := _normButtonLog s;
     _rangeAutoscaleButton := _rangeAutoscaleButton s;
     _startValue := _startValue s; _endValue := _endValue s;
     _plot := _plot s; sigColormapChanged := sigColormapChanged s;
     memory := memory s |}.

Definition set_dataRange v (s : state) : state :=
  {| _histogramData := _histogramData s;
     _minMaxWasEdited := _minMaxWasEdited s;
     _dataRange := v; _comboBoxColormap := _comboBoxColormap s;
     _normButtonLinear := _normButtonLinear s;
     _normButtonLog := _normButtonLog s;
     _rangeAutoscaleButton := _rangeAutoscaleButton s;
     _startValue := _startValue s; _endValue := _endValue s;
     _plot := _plot s; sigColormapChanged := sigColormapChanged s;
     memory := memory s |}.

Definition set_comboBoxColormap v (s : state) : state :=
  {| _histogramData := _histogramData s;
     _minMaxWasEdited := _minMaxWasEdited s;
     _dataRange := _dataRange s; _comboBoxColormap := v;
     _normButtonLinear := _normButtonLinear s;
     _normButtonLog := _normButtonLog s;
     _rangeAutoscaleButton := _rangeAutoscaleButton s;
     _startValue := _startValue s; _endValue := _endValue s;
     _plot := _plot s; sigColormapChanged := sigColormapChanged s;
     memory := memory s |}.

(** Both radio buttons at once: the group couples them. *)
Definition set_normButtons (v : bool * bool) (s : state) : state :=
  {| _histogramData := _histogramData s;
     _minMaxWasEdited := _minMaxWasEdited s;
     _dataRange := _dataRange s; _comboBoxColormap := _comboBoxColormap s;
     _normButtonLinear := fst v;
     _normButtonLog := snd v;
     _rangeAutoscaleButton := _rangeAutoscaleButton s;
     _startValue := _startValue s; _endValue := _endValue s;
     _plot := _plot s; sigColormapChanged := sigColormapChanged s;
     memory := memory s |}.

Definition set_rangeAutoscaleButton v (s : state) : state :=
  {| _histogramData := _histogramData s;
     _minMaxWasEdited := _minMaxWasEdited s;
     _dataRange := _dataRange s; _comboBoxColormap := _comboBoxColormap s;
     _normButtonLinear := _normButtonLinear s;
     _normButtonLog := _normButtonLog s;
     _rangeAutoscaleButton := v;
     _startValue := _startValue s; _endValue := _endValue s;
     _plot := _plot s; sigColormapChanged := sigColormapChanged s;
     memory := memory s |}.

Definition set_startValue v (s : state) : state :=
  {| _histogramData := _histogramData s;
     _minMaxWasEdited := _minMaxWasEdited s;
     _dataRange := _dataRange s; _comboBoxColormap := _comboBoxColormap s;
     _normButtonLinear := _normButtonLinear s;
     _normButtonLog := _normButtonLog s;
     _rangeAutoscaleButton := _rangeAutoscaleButton s;
     _startValue := v; _endValue := _endValue s;
     _plot := _plot s; sigColormapChanged := sigColormapChanged s;
     memory := memory s |}.

Definition set_endValue v (s : state) : state :=
  {| _histogramData := _histogramData s;
     _minMaxWasEdited := _minMaxWasEdited s;
     _dataRange := _dataRange s; _comboBoxColormap := _comboBoxColormap s;
     _normButtonLinear := _normButtonLinear s;
     _normButtonLog := _normButtonLog s;
     _rangeAutoscaleButton := _rangeAutoscaleButton s;
     _startValue := _startValue s; _endValue := v;
     _plot := _plot s; sigColormapChanged := sigColormapChanged s;
     memory := memory s |}.

Definition set_plot v (s : state) : state :=
  {| _histogramData := _histogramData s;
     _minMaxWasEdited := _minMaxWasEdited s;
     _dataRange := _dataRange s; _comboBoxColormap := _comboBoxColormap s;
     _normButtonLinear := _normButtonLinear s;
     _normButtonLog := _normButtonLog s;
     _rangeAutoscaleButton := _rangeAutoscaleButton s;
     _startValue := _startValue s; _endValue := _endValue s;
     _plot := v; sigColormapChanged := sigColormapChanged s;
     memory := memory s |}.

Definition set_sigColormapChanged v (s : state) : state :=
  {| _histogramData := _histogramData s;
     _minMaxWasEdited := _minMaxWasEdited s;
     _dataRange := _dataRange s; _comboBoxColormap := _comboBoxColormap s;
     _normButtonLinear := _normButtonLinear s;
     _normButtonLog := _normButtonLog s;
     _rangeAutoscaleButton := _rangeAutoscaleButton s;
     _startValue := _startValue s; _endValue := _endValue s;
     _plot := _plot s; sigColormapChanged := v;
     memory := memory s |}.

Definition set_memory v (s : state) : state :=
  {| _histogramData := _histogramData s;
     _minMaxWasEdited := _minMaxWasEdited s;
     _dataRange := _dataRange s; _comboBoxColormap := _comboBoxColormap s;
     _normButtonLinear := _normButtonLinear s;
     _normButtonLog := _normButtonLog s;
     _rangeAutoscaleButton := _rangeAutoscaleButton s;
     _startValue := _startValue s; _endValue := _endValue s;
     _plot := _plot s; sigColormapChanged := sigColormapChanged s;
     memory := v |}.

(** *** Methods run on the state and may raise *)

Inductive exn : Type :=
| AssertionError
| ValueError
| IndexError
| TypeError.

Inductive result (A : Type) : Type :=
| Ok (a : A)
| Raise (e : exn).
Arguments Ok {A} a.
Arguments Raise {A} e.

Definition M (A : Type) : Type := state -> result A * state.

Definition ret {A} (a : A) : M A := fun s => (Ok a, s).

Definition bind {A B} (m : M A) (k : A -> M B) : M B :=
  fun s =>
    match m s with
    | (Ok a, s') => k a s'
    | (Raise e, s') => (Raise e, s')
    end.

Definition raise {A} (e : exn) : M A := fun s => (Raise e, s).
Definition get : M state := fun s => (Ok s, s).
Definition modify (f : state -> state) : M unit := fun s => (Ok tt, f s).

(** [assert b] *)
Definition assert (b : bool) : M unit :=
  if b then ret tt else raise AssertionError.

(** An optional value, raising [e] when there is none. *)
Definition from_option {A} (e : exn) (o : option A) : M A :=
  match o with
  | Some a => ret a
  | None => raise e
  end.

Notation "x <- c ;; k" := (bind c (fun x => k))
  (at level 100, c at next level, right associativity).
Notation "c ;; k" := (bind c (fun _ => k))
  (at level 100, right associativity).

Definition f0 : PyFloat.t := Eval vm_compute in PyFloat.lit "0".
Definition f1 : PyFloat.t := Eval vm_compute in PyFloat.lit "1.".
Definition f10 : PyFloat.t := Eval vm_compute in PyFloat.lit "10.".
Definition f6 : PyFloat.t := Eval vm_compute in PyFloat.lit "6.0".
Definition f0_5 : PyFloat.t := Eval vm_compute in PyFloat.lit "0.5".

Definition _colormapList : list string :=
  ["gray"; "reversed gray"; "temperature"; "red"; "green"; "blue"].

(** [x in t] and [t.index(x)] on a tuple of strings. *)
Definition contains (x : string) (l : list string) : bool :=
  existsb (String.eqb x) l.

Fixpoint index (x : string) (l : list string) : option nat :=
  match l with
  | [] => None
  | y :: r => if String.eqb x y then Some 0%nat else S <$> index x r
  end.

(** [self._startValue.value()] and [self._endValue.value()] *)
Definition startValue_value : M PyFloat.t :=
  s <- get ;; from_option ValueError (_FloatEdit.value (_startValue s)).

Definition endValue_value : M PyFloat.t :=
  s <- get ;; from_option ValueError (_FloatEdit.value (_endValue s)).

Definition getDataRange (s : state) : PyFloat.t * PyFloat.t := _dataRange s.

Definition _plotUpdate : M unit :=
  s <- get ;;
  let '(dataMin, dataMax) := getDataRange s in
  let marge :=
    PyFloat.div (PyFloat.add (PyFloat.abs dataMax) (PyFloat.abs dataMin)) f6 in
  let minmd := PyFloat.sub dataMin marge in
  let maxpd := PyFloat.add dataMax marge in
  start <- startValue_value ;;
  end_ <- endValue_value ;;
  let '(x, y) :=
    if PyFloat.lt start end_
    then ([minmd; start; end_; maxpd], [f0; f0; f1; f1])
    else ([minmd; end_; start; maxpd], [f1; f1; f0; f0]) in
  modify (fun s => set_plot (Plot.addCurve x y "ConstrainedCurve" (_plot s)) s) ;;
  let draggable := negb (_rangeAutoscaleButton s) in
  v <- startValue_value ;;
  modify (fun s => set_plot (Plot.insertXMarker v "Start" draggable (_plot s)) s) ;;
  v <- endValue_value ;;
  modify (fun s => set_plot (Plot.insertXMarker v "End" draggable (_plot s)) s).

(** The dict [getColormap] builds, given the floats read from the two
    line edits. *)
Definition description (s : state) (vmin vmax : PyFloat.t) : Colormap.t :=
  let isNormLinear := _normButtonLinear s in
  {| Colormap.name := PyStr.lower (currentText (_comboBoxColormap s));
     Colormap.normalization := if isNormLinear then "linear" else "log";
     Colormap.autoscale := _rangeAutoscaleButton s;
     Colormap.vmin := vmin;
     Colormap.vmax := vmax;
     Colormap.colors := 256 |}.

Definition getColormap : M Colormap.t :=
  s <- get ;;
  vmin <- startValue_value ;;
  vmax <- endValue_value ;;
  ret (description s vmin vmax).

(** [_notify]: the one place that emits [sigColormapChanged]. *)
Definition _notify : M unit :=
  _plotUpdate ;;
  colormap <- getColormap ;;
  modify (fun s => set_sigColormapChanged (sigColormapChanged s ++ [colormap]) s).

Definition _autoscaleToggled (checked : bool) : M unit :=
  modify (fun s => set_startValue (setEnabled (negb checked) (_startValue s)) s) ;;
  modify (fun s => set_endValue (setEnabled (negb checked) (_endValue s)) s) ;;
  if checked then
    modify (fun s =>
      set_startValue (_FloatEdit.setValue (fst (_dataRange s)) (_startValue s)) s) ;;
    modify (fun s =>
      set_endValue (_FloatEdit.setValue (snd (_dataRange s)) (_endValue s)) s)
  else ret tt.

(** [self._rangeAutoscaleButton.setChecked(b)]: a change of state emits
    [toggled], which runs [_autoscaleToggled]. *)
Definition rangeAutoscaleButton_setChecked (b : bool) : M unit :=
  s <- get ;;
  if Bool.eqb (_rangeAutoscaleButton s) b then ret tt
  else modify (set_rangeAutoscaleButton b) ;; _autoscaleToggled b.

Definition setDataRange (min_ max_ : PyFloat.t) : M unit :=
  assert (PyFloat.le min_ max_) ;;
  modify (set_dataRange (min_, max_)) ;;
  s <- get ;;
  if _rangeAutoscaleButton s then
    modify (fun s => set_startValue (_FloatEdit.setValue min_ (_startValue s)) s) ;;
    modify (fun s => set_endValue (_FloatEdit.setValue max_ (_endValue s)) s) ;;
    _notify
  else _plotUpdate.

Definition setColormap (name normalization : option string)
    (autoscale : option bool) (vmin vmax : option PyFloat.t)
    (colors : option Z) : M unit :=
  match name with
  | Some name =>
      assert (contains name _colormapList) ;;
      i <- from_option ValueError (index name _colormapList) ;;
      modify (fun s =>
        set_comboBoxColormap
          (setCurrentIndex (Z.of_nat i) (_comboBoxColormap s)) s)
  | None => ret tt
  end ;;
  match normalization with
  | Some normalization =>
      assert (contains normalization ["linear"; "log"]) ;;
      modify (fun s =>
        set_normButtons
          (setChecked_exclusive (String.eqb normalization "linear")
             (_normButtonLinear s) (_normButtonLog s)) s)
  | None => ret tt
  end ;;
  match autoscale with
  | Some autoscale => rangeAutoscaleButton_setChecked autoscale
  | None => ret tt
  end ;;
  match vmin with
  | Some vmin =>
      modify (fun s => set_startValue (_FloatEdit.setValue vmin (_startValue s)) s)
  | None => ret tt
  end ;;
  match vmax with
  | Some vmax =>
      modify (fun s => set_endValue (_FloatEdit.setValue vmax (_endValue s)) s)
  | None => ret tt
  end ;;
  _notify.

Definition _minMaxTextEdited (text : string) : M unit :=
  modify (set_minMaxWasEdited true).

Definition _minMaxEditingFinished : M unit :=
  s <- get ;;
  if _minMaxWasEdited s then
    modify (set_minMaxWasEdited false) ;;
    _notify
  else ret tt.

(** [numpy.array(a, copy=True)] and reading an array's elements. A
    reference to no array is not a Python value; it ends in
    [TypeError]. *)
Definition numpy_array (a : Numpy.ref) : M Numpy.ref :=
  s <- get ;;
  copy <- from_option TypeError (Numpy.array_copy a (memory s)) ;;
  modify (set_memory (snd copy)) ;;
  ret (fst copy).

Definition elements (a : Numpy.ref) : M Numpy.ndarray :=
  s <- get ;; from_option TypeError (memory s !! a).

Definition getHistogram : M (option (Numpy.ref * Numpy.ref)) :=
  s <- get ;;
  match _histogramData s with
  | None => ret None
  | Some (bins, counts) =>
      a <- numpy_array bins ;;
      b <- numpy_array counts ;;
      ret (Some (a, b))
  end.

Definition setHistogram (hist bin_edges : option Numpy.ref) : M unit :=
  match hist, bin_edges with
  | Some hist, Some bin_edges =>
      hist <- numpy_array hist ;;
      bin_edges <- numpy_array bin_edges ;;
      modify (set_histogramData (Some (hist, bin_edges))) ;;
      counts <- elements hist ;;
      edges <- elements bin_edges ;;
      let bins_center :=
        map (PyFloat.mul f0_5)
          (zip_with PyFloat.add (removelast edges) (tail edges)) in
      top <- from_option ValueError (Numpy.max counts) ;;
      let norm_hist := map (fun c => PyFloat.div c top) counts in
      modify (fun s =>
        set_plot (Plot.addCurve bins_center norm_hist "Histogram" (_plot s)) s) ;;
      first <- from_option IndexError (head edges) ;;
      last <- from_option IndexError (last edges) ;;
      setDataRange first last
  | _, _ =>
      modify (set_histogramData None) ;;
      modify (fun s => set_plot (Plot.removeCurve "Histogram" (_plot s)) s)
  end.

(** *** Construction *)

Definition _plotInit : M unit :=
  modify (set_plot Plot.new) ;;
  _plotUpdate.

(** The object before [__init__] has run: no attribute is read before
    [__init__] sets it. *)
Definition object_new (m : Numpy.memory) : state :=
  {| _histogramData := None; _minMaxWasEdited := false;
     _dataRange := (PyFloat.nan, PyFloat.nan);
     _comboBoxColormap := {| items := []; currentIndex := -1 |};
     _normButtonLinear := false; _normButtonLog := false;
     _rangeAutoscaleButton := false;
     _startValue := _FloatEdit.new None; _endValue := _FloatEdit.new None;
     _plot := Plot.new; sigColormapChanged := []; memory := m |}.

Definition __init__ : M unit :=
  modify (set_histogramData None) ;;
  modify (set_minMaxWasEdited false) ;;
  modify (set_dataRange (f1, f10)) ;;
  modify (set_comboBoxColormap
    (fold_left (fun w cmap => addItem (PyStr.capitalize_words cmap) w)
       _colormapList {| items := []; currentIndex := -1 |})) ;;
  modify (set_normButtons (true, false)) ;;
  modify (set_rangeAutoscaleButton true) ;;
  modify (set_startValue (setEnabled false (_FloatEdit.new (Some f1)))) ;;
  modify (set_endValue (setEnabled false (_FloatEdit.new (Some f10)))) ;;
  _plotInit ;;
  setColormap (Some "gray") (Some "linear") (Some true)
    (Some f1) (Some f10) None.

(** *** What the user does

    Each action changes the widget as Qt does and then runs the slots
    connected in [__init__], in the order Qt emits the signals. *)

Inductive field : Type := Start | End_.

(** A click on the autoscale check box: [toggled], then [clicked]. *)
Definition click_autoscale : M unit :=
  s <- get ;;
  rangeAutoscaleButton_setChecked (negb (_rangeAutoscaleButton s)) ;;
  _notify.

(** A keystroke in a line edit leaves [text] in it: [textEdited]. *)
Definition edit_text (f : field) (text : string) : M unit :=
  modify (fun s =>
    match f with
    | Start => set_startValue (setText text (_startValue s)) s
    | End_ => set_endValue (setText text (_endValue s)) s
    end) ;;
  _minMaxTextEdited text.

(** Return pressed in a line edit, or focus leaving it:
    [editingFinished]. *)
Definition finish_editing : M unit := _minMaxEditingFinished.

(** A click on the [Log] ([log = true]) or [Linear] radio button:
    [buttonClicked]. *)
Definition click_norm (log : bool) : M unit :=
  modify (set_normButtons (negb log, log)) ;;
  _notify.

(** Choosing item [i] of the combo box: [activated]. *)
Definition activate (i : Z) : M unit :=
  modify (fun s =>
    set_comboBoxColormap (setCurrentIndex i (_comboBoxColormap s)) s) ;;
  _notify.



(** *** States

    [readable]: both line edits hold the text of a float, as they do
    unless the user is in the middle of typing one. [constructed]: the
    combo box lists the colormaps as [__init__] labels them. *)
Definition readable (s : state) : Prop :=
  is_Some (_FloatEdit.value (_startValue s))
  /\ is_Some (_FloatEdit.value (_endValue s)).

Definition constructed (s : state) : Prop :=
  items (_comboBoxColormap s) = map PyStr.capitalize_words _colormapList.

(** [kept s s']: [s'] has the combo box's items of [s], and each line
  edit holds in [s'] the text it held in [s] or the ['%g'] text of a
  float. *)
Definition kept (s s' : state) : Prop :=
  items (_comboBoxColormap s') = items (_comboBoxColormap s)
  /\ (text (_startValue s') = text (_startValue s)
      \/ exists v, text (_startValue s') = PyFloat.format_g v)
  /\ (text (_endValue s') = text (_endValue s)
      \/ exists v, text (_endValue s') = PyFloat.format_g v).

(** A method that leaves such a state, whether it returns or raises. *)
Definition keeps {A} (m : M A) : Prop :=
  forall s, kept s (snd (m s)).

(** [ColormapDialog()], with no array in memory. *)
Definition dialog0 : state :=
  Eval vm_compute in snd (__init__ (object_new ∅)).

(** The new dialog and a caller's arrays: counts [1, 2, 3] at reference
    1, bin edges [0, 1, 2, 3] at reference 2, and counts [0, 0, 0] at
    reference 3. *)
Definition arrays : Numpy.memory :=
  Eval vm_compute in
    let f := PyFloat.lit in
    <[1%positive := [f "1"; f "2"; f "3"]]>
      (<[2%positive := [f "0"; f "1"; f "2"; f "3"]]>
         (<[3%positive := [f "0"; f "0"; f "0"]]> ∅)).

Definition dialog_arrays : state := set_memory arrays dialog0.

(** The same after [setColormap(autoscale=False, vmin=1., vmax=2.)]: the
    line edits are enabled and hold [1] and [2]. *)
Definition dialog_manual : state :=
  Eval vm_compute in
    snd (setColormap None None (Some false)
           (Some (PyFloat.lit "1.")) (Some (PyFloat.lit "2.")) None dialog0).

(** *** Events of the plot

  The dict the plot sends with [sigPlotSignal]: the kind of event and,
  for the events of a marker, the marker's label and its abscissa. The
  slot reads [label] and [xdata] of marker events only. *)
Record plot_event : Type := {
  event : string;
  label : string;
  xdata : PyFloat.t
}.

(** [float(str(x))] for a float [x]: [str] writes the shortest digits
  that [float] reads back as [x], so the result is [x]. *)
Definition float_of_str (x : PyFloat.t) : PyFloat.t := x.

Definition _plotSlot (ev : plot_event) : M unit :=
  if contains (event ev) ["markerMoving"; "markerMoved"] then
    let value := float_of_str (xdata ev) in
    (if String.eqb (label ev) "Start" then
       modify (fun s =>
         set_startValue (_FloatEdit.setValue value (_startValue s)) s)
     else if String.eqb (label ev) "End" then
       modify (fun s =>
         set_endValue (_FloatEdit.setValue value (_endValue s)) s)
     else ret tt) ;;
    if String.eqb (event ev) "markerMoved" then _notify
    else _plotUpdate
  else ret tt.

(** *** More states

  [markers_in_sync]: the plot's [Start] and [End] markers stand at the
  floats the line edits hold and can be dragged exactly when autoscale
  is unchecked. [widgets_consistent]: the line edits are enabled exactly
  when autoscale is unchecked, and one radio button is checked, not
  both. *)
Definition markers_in_sync (s : state) : Prop :=
  exists v w,
    _FloatEdit.value (_startValue s) = Some v
    /\ _FloatEdit.value (_endValue s) = Some w
    /\ Plot.markers (_plot s) !! "Start"
       = Some {| Plot.marker_x := v;
                 Plot.marker_draggable := negb (_rangeAutoscaleButton s) |}
    /\ Plot.markers (_plot s) !! "End"
       = Some {| Plot.marker_x := w;
                 Plot.marker_draggable := negb (_rangeAutoscaleButton s) |}.

(** A method that leaves the markers in sync whenever it returns. *)
Definition ends_in_sync {A} (m : M A) : Prop :=
  forall s a s', m s = (Ok a, s') -> markers_in_sync s'.

Definition widgets_consistent (s : state) : Prop :=
  isEnabled (_startValue s) = negb (_rangeAutoscaleButton s)
  /\ isEnabled (_endValue s) = negb (_rangeAutoscaleButton s)
  /\ _normButtonLog s = negb (_normButtonLinear s).

(** A method that keeps the widgets consistent, whether it returns or
  raises. *)
Definition keeps_consistent {A} (m : M A) : Prop :=
  forall s, widgets_consistent s -> widgets_consistent (snd (m s)).

(** [dialog_manual] while the user has typed a lone sign into the first
  line edit. *)
Definition dialog_typing : state :=
  Eval vm_compute in snd (edit_text Start "-" dialog_manual).

(** [dialog_arrays] after [setHistogram] with the arrays at references 1
  and 2. *)
Definition dialog_histogram : state :=
  Eval vm_compute in
    snd (setHistogram (Some 1%positive) (Some 2%positive) dialog_arrays).
End ColormapDialog.

Arguments PyFloat.format_g : simpl never.
Arguments PyFloat.float : simpl never.

(** * Properties *)

(** ** Every text written by [setValue] reads back as a float *)

Section FloatText.
Import PyFloat.
Local Open Scope char_scope.

Local Ltac ascii_cases c := destruct c as [[] [] [] [] [] [] [] []].

Lemma is_digit_digit_char (d : Z) : is_digit (digit_char d) = true.
Proof.
  unfold digit_char.
  repeat match goal with
         | |- context [match ?x with _ => _ end] => destruct x
         end; reflexivity.
Qed.

Lemma is_digit_not_space (c : ascii) :
  is_digit c = true -> is_space c = false.
Proof. ascii_cases c; intros H; try reflexivity; discriminate H. Qed.

Lemma read_sign_digit (c : ascii) (r : list ascii) :
  is_digit c = true -> read_sign (c :: r) = (false, c :: r).
Proof. ascii_cases c; intros H; try reflexivity; discriminate H. Qed.

Lemma span_digits_app (a b : list ascii) :
  Forall (fun c => is_digit c = true) a ->
  (forall c r, b = c :: r -> is_digit c = false) ->
  span_digits (a ++ b) = (a, b).
Proof.
  intros Ha Hb. induction Ha as [|c a Hc _ IH]; cbn [span_digits app].
  - destruct b as [|c r]; [reflexivity|].
    cbn [span_digits]. now rewrite (Hb c r eq_refl).
  - now rewrite Hc, IH.
Qed.

Lemma span_digits_all (a : list ascii) :
  Forall (fun c => is_digit c = true) a -> span_digits a = (a, []).
Proof.
  intros Ha. rewrite <- (app_nil_r a) at 1.
  apply span_digits_app; [assumption | discriminate].
Qed.

Lemma Forall_digit_rstrip_zeros (l : list ascii) :
  Forall (fun c => is_digit c = true) l ->
  Forall (fun c => is_digit c = true) (rstrip_zeros l).
Proof.
  induction 1 as [|c l Hc _ IH]; simpl; [constructor|].
  destruct (rstrip_zeros l) as [|c' l'].
  - destruct (Ascii.eqb c "0"); repeat constructor; assumption.
  - constructor; assumption.
Qed.

Lemma Forall_digit_digits_of (p : nat) (d : Z) :
  Forall (fun c => is_digit c = true) (digits_of p d).
Proof.
  unfold digits_of. apply Forall_map, Forall_forall.
  intros i _. apply is_digit_digit_char.
Qed.

Lemma Forall_digit_uint_chars (u : Decimal.uint) :
  Forall (fun c => is_digit c = true) (uint_chars u).
Proof. induction u; simpl; constructor; auto. Qed.

Lemma Forall_digit_exponent_digits (n : Z) :
  Forall (fun c => is_digit c = true) (exponent_digits n).
Proof.
  unfold exponent_digits. apply Forall_app. split.
  - destruct (n / 100)%Z; auto using Forall_digit_uint_chars.
  - repeat constructor; apply is_digit_digit_char.
Qed.

Lemma g_numeral_wf (num den : Z) : numeral_wf (g_numeral num den).
Proof.
  unfold g_numeral. destruct (significand 6 num den) as [d x].
  pose proof (Forall_digit_digits_of 6 d) as Hds.
  assert (Hlen : length (digits_of 6 d) = 6%nat) by reflexivity.
  destruct ((-4 <=? x)%Z && (x <? 6)%Z) eqn:Hx.
  - destruct (0 <=? x)%Z eqn:H0.
    + unfold numeral_wf; cbn [int_part frac_part exp_part]. repeat split.
      * now apply Forall_take.
      * apply Z.leb_le in H0.
        destruct (Z.to_nat (x + 1)) eqn:E; [lia|].
        destruct (digits_of 6 d); [discriminate | simpl; discriminate].
      * apply Forall_digit_rstrip_zeros. now apply Forall_drop.
    + unfold numeral_wf; cbn [int_part frac_part exp_part]. repeat split.
      * repeat constructor.
      * discriminate.
      * apply Forall_digit_rstrip_zeros, Forall_app. split; [|assumption].
        apply Forall_forall. intros c Hc.
        apply list_elem_of_In, repeat_spec in Hc. now subst.
  - unfold numeral_wf; cbn [int_part frac_part exp_part]. repeat split.
    + now apply Forall_take.
    + destruct (digits_of 6 d); [discriminate | simpl; discriminate].
    + apply Forall_digit_rstrip_zeros. now apply Forall_drop.
    + apply Forall_digit_exponent_digits.
    + unfold exponent_digits. intros E. apply app_eq_nil in E as [_ E].
      discriminate.
Qed.

Lemma lstrip_no_space (l : list ascii) :
  Forall (fun c => is_space c = false) l -> lstrip l = l.
Proof. destruct 1 as [|c l Hc _]; cbn [lstrip]; [|rewrite Hc]; reflexivity. Qed.

Lemma strip_no_space (l : list ascii) :
  Forall (fun c => is_space c = false) l -> strip l = l.
Proof.
  intros H. unfold strip. rewrite (lstrip_no_space l H).
  rewrite lstrip_no_space by now apply Forall_rev.
  apply rev_involutive.
Qed.

Lemma render_no_space (n : numeral) :
  numeral_wf n -> Forall (fun c => is_space c = false) (render n).
Proof.
  intros (Hi & _ & Hf & He). unfold render.
  pose proof is_digit_not_space as D.
  repeat apply Forall_app_2.
  - eapply Forall_impl; eauto.
  - destruct (frac_part n) eqn:E; constructor; [reflexivity|].
    eapply Forall_impl; eauto.
  - destruct (exp_part n) as [[s ds]|]; [|constructor].
    destruct He as [He _].
    constructor; [reflexivity|].
    constructor; [destruct s; reflexivity|].
    eapply Forall_impl; eauto.
Qed.

Lemma parse_exponent_render (e : option (bool * list ascii)) :
  match e with
  | None => True
  | Some (_, ds) => Forall (fun c => is_digit c = true) ds /\ ds <> []
  end ->
  exists x,
    parse_exponent
      match e with
      | None => []
      | Some (s, ds) => "e" :: (if s then "-" else "+") :: ds
      end = Some (x, []).
Proof.
  destruct e as [[s ds]|]; [|now exists 0%Z].
  intros [Hd Hne]. exists (cond_Zopp s (digits_val ds)).
  unfold parse_exponent.
  change (Ascii.eqb (PyStr.lower_char "e") "e") with true. cbv iota.
  replace (read_sign ((if s then "-" else "+") :: ds)) with (s, ds)
    by now destruct s.
  rewrite (span_digits_all ds Hd).
  destruct ds; [contradiction|reflexivity].
Qed.

Lemma parse_decimal_render (neg : bool) (n : numeral) :
  numeral_wf n -> is_Some (parse_decimal neg (render n)).
Proof.
  intros (Hi & Hne & Hf & He).
  destruct (parse_exponent_render (exp_part n) He) as [x Hx].
  unfold parse_decimal, render.
  set (ex := match exp_part n with
             | None => []
             | Some (s, ds) => "e" :: (if s then "-" else "+") :: ds
             end) in *.
  assert (Hex : forall c r, ex = c :: r -> is_digit c = false).
  { subst ex. destruct (exp_part n) as [[s ds]|]; intros c r E;
      [injection E as <- _; reflexivity | discriminate]. }
  destruct (frac_part n) as [|f fs] eqn:Ef.
  - rewrite span_digits_app; [|assumption|exact Hex].
    cbn [app].
    replace (match ex with
             | "." :: r => span_digits r
             | _ => ([], ex)
             end) with (@nil ascii, ex).
    2:{ subst ex. destruct (exp_part n) as [[s ds]|]; reflexivity. }
    rewrite app_nil_r, Hx.
    destruct (int_part n); [contradiction|]. eexists; reflexivity.
  - rewrite span_digits_app; [|assumption|].
    2:{ intros c r E. cbn [app] in E. injection E as <- _. reflexivity. }
    cbn [app]. rewrite app_comm_cons.
    rewrite span_digits_app; [|assumption|exact Hex].
    rewrite Hx.
    destruct (int_part n); [contradiction|]. eexists; reflexivity.
Qed.

Lemma parse_chars_render (s : bool) (n : numeral) :
  numeral_wf n ->
  is_Some (parse_chars ((if s then ["-"] else []) ++ render n)).
Proof.
  intros Hn. pose proof (render_no_space n Hn) as Hsp.
  pose proof Hn as (Hi & Hne & _).
  unfold parse_chars. rewrite strip_no_space.
  2:{ apply Forall_app_2; [destruct s; repeat constructor | assumption]. }
  assert (exists c r, render n = c :: r /\ is_digit c = true) as (c & r & E & Hc).
  { unfold render. destruct (int_part n) as [|c r]; [contradiction|].
    exists c. eexists. split; [reflexivity|]. now inversion Hi. }
  replace (read_sign ((if s then ["-"] else []) ++ render n))
    with (s, render n).
  2:{ destruct s; [reflexivity|]. cbn [app]. rewrite E.
      symmetry. now apply read_sign_digit. }
  rewrite E, Hc. cbn [orb]. rewrite <- E.
  now apply parse_decimal_render.
Qed.

(** What [setValue] writes, [value] reads: ['%g' % v] is always the
    text of a float. *)
Lemma float_format_g (v : t) : is_Some (float (format_g v)).
Proof.
  unfold float, format_g. rewrite list_ascii_of_string_of_list_ascii.
  destruct v as [[]|[]| |s m e]; try (eexists; reflexivity).
  unfold format_g_chars. apply parse_chars_render.
  destruct (0 <=? e)%Z; apply g_numeral_wf.
Qed.
End FloatText.

(** ** The dialog's methods, step by step *)

(** Reading an attribute of a state just written. *)
Ltac state_simpl :=
  cbn [ColormapDialog.set_histogramData ColormapDialog.set_minMaxWasEdited ColormapDialog.set_dataRange
       ColormapDialog.set_comboBoxColormap ColormapDialog.set_normButtons ColormapDialog.set_rangeAutoscaleButton
       ColormapDialog.set_startValue ColormapDialog.set_endValue ColormapDialog.set_plot ColormapDialog.set_sigColormapChanged
       ColormapDialog.set_memory
       ColormapDialog._histogramData ColormapDialog._minMaxWasEdited ColormapDialog._dataRange ColormapDialog._comboBoxColormap
       ColormapDialog._normButtonLinear ColormapDialog._normButtonLog ColormapDialog._rangeAutoscaleButton
       ColormapDialog._startValue ColormapDialog._endValue ColormapDialog._plot ColormapDialog.sigColormapChanged ColormapDialog.memory
       fst snd] in *.

Section Steps.
Import ColormapDialog Qt.

Lemma startValue_value_eq (s : state) :
  startValue_value s =
    match _FloatEdit.value (_startValue s) with
    | Some v => (Ok v, s)
    | None => (Raise ValueError, s)
    end.
Proof.
  unfold startValue_value, bind, get, from_option.
  destruct (_FloatEdit.value (_startValue s)); reflexivity.
Qed.

Lemma endValue_value_eq (s : state) :
  endValue_value s =
    match _FloatEdit.value (_endValue s) with
    | Some v => (Ok v, s)
    | None => (Raise ValueError, s)
    end.
Proof.
  unfold endValue_value, bind, get, from_option.
  destruct (_FloatEdit.value (_endValue s)); reflexivity.
Qed.

(** [_plotUpdate] touches the plot only, and nothing when a line edit
    does not hold a float. *)
Lemma _plotUpdate_ok (s : state) (v w : PyFloat.t) :
  _FloatEdit.value (_startValue s) = Some v ->
  _FloatEdit.value (_endValue s) = Some w ->
  exists p,
    _plotUpdate s = (Ok tt, set_plot p s)
    /\ Plot.curves p !! "Histogram" = Plot.curves (_plot s) !! "Histogram".
Proof.
  intros Hv Hw. unfold _plotUpdate.
  unfold bind at 1. unfold get at 1. cbv iota beta.
  destruct (getDataRange s) as [dataMin dataMax].
  unfold bind at 1. rewrite startValue_value_eq, Hv.
  unfold bind at 1. rewrite endValue_value_eq, Hw.
  destruct (PyFloat.lt v w); cbv beta iota; unfold bind, modify;
    rewrite startValue_value_eq; state_simpl; rewrite Hv;
    rewrite endValue_value_eq; state_simpl; rewrite Hw;
    (eexists; split; [reflexivity|]); state_simpl;
    cbn [Plot.curves Plot.insertXMarker Plot.addCurve];
    now rewrite lookup_insert_ne.
Qed.

Lemma _plotUpdate_raises (s : state) :
  ~ readable s -> _plotUpdate s = (Raise ValueError, s).
Proof.
  intros Hn. unfold _plotUpdate.
  unfold bind at 1. unfold get at 1. cbv iota beta.
  destruct (getDataRange s) as [dataMin dataMax].
  unfold bind at 1. rewrite startValue_value_eq.
  destruct (_FloatEdit.value (_startValue s)) as [v|] eqn:Hv; [|reflexivity].
  unfold bind at 1. rewrite endValue_value_eq.
  destruct (_FloatEdit.value (_endValue s)) as [w|] eqn:Hw; [|reflexivity].
  exfalso. apply Hn. split; [rewrite Hv | rewrite Hw]; eauto.
Qed.

Lemma getColormap_ok (s : state) (v w : PyFloat.t) :
  _FloatEdit.value (_startValue s) = Some v ->
  _FloatEdit.value (_endValue s) = Some w ->
  getColormap s = (Ok (description s v w), s).
Proof.
  intros Hv Hw. unfold getColormap, bind, get, ret.
  now rewrite startValue_value_eq, Hv, endValue_value_eq, Hw.
Qed.

Lemma _notify_ok (s : state) (v w : PyFloat.t) :
  _FloatEdit.value (_startValue s) = Some v ->
  _FloatEdit.value (_endValue s) = Some w ->
  exists p,
    _notify s =
      (Ok tt,
       set_sigColormapChanged (sigColormapChanged s ++ [description s v w])
         (set_plot p s))
    /\ Plot.curves p !! "Histogram" = Plot.curves (_plot s) !! "Histogram".
Proof.
  intros Hv Hw. destruct (_plotUpdate_ok s v w Hv Hw) as (p & Hp & Hh).
  exists p. split; [|exact Hh]. unfold _notify, bind at 1. rewrite Hp.
  unfold bind. rewrite (getColormap_ok (set_plot p s) v w Hv Hw).
  reflexivity.
Qed.

Lemma _notify_raises (s : state) :
  ~ readable s -> _notify s = (Raise ValueError, s).
Proof.
  intros Hn. unfold _notify, bind at 1.
  now rewrite _plotUpdate_raises.
Qed.

(** X5. Whatever float [setValue] is given, [value] reads the text it
    wrote back as a float: it does not raise. *)
Lemma value_setValue (v : PyFloat.t) (w : QLineEdit) :
  is_Some (_FloatEdit.value (_FloatEdit.setValue v w)).
Proof. apply float_format_g. Qed.

(** The names of [_colormapList]: where each stands, and how the combo box
    labels it. *)
Lemma colormap_name (name : string) :
  contains name _colormapList = true ->
  exists i : nat,
    index name _colormapList = Some i
    /\ map PyStr.capitalize_words _colormapList !! i
       = Some (PyStr.capitalize_words name)
    /\ PyStr.lower (PyStr.capitalize_words name) = name.
Proof.
  unfold contains. rewrite existsb_exists. intros (x & Hin & Heq).
  apply String.eqb_eq in Heq. subst x.
  repeat (destruct Hin as [<-|Hin]; [eexists; repeat split; reflexivity|]).
  destruct Hin.
Qed.

(** [min_ > max_] makes the assertion [min_ <= max_] fail. *)
Lemma SFcompare_antisym (a b : PyFloat.t) :
  SFcompare b a = CompOpp <$> SFcompare a b.
Proof.
  destruct a as [sa|sa| |sa ma ea], b as [sb|sb| |sb mb eb];
    try destruct sa; try destruct sb; try reflexivity; cbn.
  all: pose proof (Pos.compare_cont_antisym ma mb Eq) as P; cbn in P;
    rewrite (Z.compare_antisym ea eb), <- P;
    destruct (ea ?= eb)%Z; cbn; try reflexivity;
    destruct (Pos.compare_cont Eq ma mb); reflexivity.
Qed.

Lemma gt_not_le (a b : PyFloat.t) :
  PyFloat.lt b a = true -> PyFloat.le a b = false.
Proof.
  unfold PyFloat.lt, PyFloat.le, SFltb, SFleb.
  rewrite (SFcompare_antisym a b).
  destruct (SFcompare a b) as [[]|]; cbn; congruence.
Qed.
Lemma readable_cases (s : state) :
  (exists v w,
     _FloatEdit.value (_startValue s) = Some v
     /\ _FloatEdit.value (_endValue s) = Some w)
  \/ ~ readable s.
Proof.
  unfold readable.
  destruct (_FloatEdit.value (_startValue s)) as [v|];
    destruct (_FloatEdit.value (_endValue s)) as [w|].
  - left. now exists v, w.
  - right. intros [_ [x Hx]]. discriminate.
  - right. intros [[x Hx] _]. discriminate.
  - right. intros [[x Hx] _]. discriminate.
Qed.
End Steps.

(** ** The data range *)

Section DataRange.
Import ColormapDialog Qt.

(** C5. [setDataRange(min_, max_)] with [min_ > max_] raises the
    assertion error and leaves the whole state as it was: the data range,
    the line edits behind vmin and vmax, the autoscale box, and the list of
    emitted notifications. *)
Theorem setDataRange_rejects_inverted_range
    (s : state) (min_ max_ : PyFloat.t) :
  PyFloat.lt max_ min_ = true ->
  setDataRange min_ max_ s = (Raise AssertionError, s).
Proof.
  intros H. unfold setDataRange, bind at 1.
  now rewrite (gt_not_le min_ max_ H).
Qed.

Lemma setDataRange_rejects_inverted_range_witness :
  PyFloat.lt (PyFloat.lit "1.0") (PyFloat.lit "5.0") = true
  /\ setDataRange (PyFloat.lit "5.0") (PyFloat.lit "1.0") dialog0
     = (Raise AssertionError, dialog0).
Proof.
  split; [reflexivity|].
  apply (setDataRange_rejects_inverted_range dialog0
           (PyFloat.lit "5.0") (PyFloat.lit "1.0")).
  reflexivity.
Defined.

(** C4, as the code has it. For [min_ <= max_], [setDataRange] stores
    exactly [(min_, max_)] as the data range. With autoscale checked it
    writes both bounds into the line edits as ['%g'] text, so that vmin
    and vmax read back as the bounds rounded to six significant digits,
    and emits one notification, the resulting description. With
    autoscale unchecked the line edits and the emitted notifications
    stay as they were, and the call returns normally when the line edits
    hold floats. *)
Theorem setDataRange_stores_range (s : state) (min_ max_ : PyFloat.t) :
  PyFloat.le min_ max_ = true ->
  exists r s',
    setDataRange min_ max_ s = (r, s')
    /\ getDataRange s' = (min_, max_)
    /\ if _rangeAutoscaleButton s then
         r = Ok tt
         /\ exists c,
              getColormap s' = (Ok c, s')
              /\ PyFloat.float (PyFloat.format_g min_) = Some (Colormap.vmin c)
              /\ PyFloat.float (PyFloat.format_g max_) = Some (Colormap.vmax c)
              /\ sigColormapChanged s' = sigColormapChanged s ++ [c]
       else
         _startValue s' = _startValue s
         /\ _endValue s' = _endValue s
         /\ sigColormapChanged s' = sigColormapChanged s
         /\ (readable s -> r = Ok tt).
Proof.
  intros Hle. unfold setDataRange, bind at 1. rewrite Hle.
  unfold assert, ret, bind at 1, modify at 1, bind at 1, get.
  state_simpl.
  destruct (_rangeAutoscaleButton s) eqn:Hauto.
  - unfold bind at 1, modify at 1, bind at 1, modify at 1. state_simpl.
    destruct (float_format_g min_) as [v Hv], (float_format_g max_) as [w Hw].
    match goal with |- context [_notify ?s1] =>
      destruct (_notify_ok s1 v w Hv Hw) as (p & Hp & _); rewrite Hp
    end.
    eexists _, _. split; [reflexivity|]. state_simpl.
    split; [reflexivity|]. split; [reflexivity|].
    eexists. split; [apply getColormap_ok; [exact Hv | exact Hw]|].
    repeat split; assumption || reflexivity.
  - destruct (readable_cases (set_dataRange (min_, max_) s))
      as [(v & w & Hv & Hw)|Hn].
    + destruct (_plotUpdate_ok _ v w Hv Hw) as (p & Hp & _). rewrite Hp.
      eexists _, _. split; [reflexivity|]. state_simpl. repeat split.
    + rewrite (_plotUpdate_raises _ Hn).
      eexists _, _. split; [reflexivity|]. state_simpl. repeat split.
      intros Hr. contradiction.
Qed.
Lemma setDataRange_stores_range_witness :
  exists r s',
    setDataRange (PyFloat.lit "2.0") (PyFloat.lit "20.0") dialog0 = (r, s')
    /\ getDataRange s' = (PyFloat.lit "2.0", PyFloat.lit "20.0").
Proof.
  destruct (setDataRange_stores_range dialog0
              (PyFloat.lit "2.0") (PyFloat.lit "20.0"))
    as (r & s' & Hrun & Hrange & _).
  - vm_compute. reflexivity.
  - exists r, s'. split; assumption.
Defined.

(** C4 fails as stated: with autoscale checked, [setDataRange(0.1234567,
    1.0)] leaves a vmin that is not the given minimum (the line edit
    holds [0.123457]). *)
Lemma setDataRange_vmin_is_rounded :
  PyFloat.le (PyFloat.lit "0.1234567") (PyFloat.lit "1.0") = true
  /\ _rangeAutoscaleButton dialog0 = true
  /\ exists s' c,
       setDataRange (PyFloat.lit "0.1234567") (PyFloat.lit "1.0") dialog0
         = (Ok tt, s')
       /\ getColormap s' = (Ok c, s')
       /\ text (_startValue s') = "0.123457"
       /\ Colormap.vmin c <> PyFloat.lit "0.1234567".
Proof.
  split; [vm_compute; reflexivity|]. split; [reflexivity|].
  eexists _, _. split; [vm_compute; reflexivity|].
  split; [vm_compute; reflexivity|].
  split; [vm_compute; reflexivity|].
  vm_compute. discriminate.
Qed.
End DataRange.

(** ** Setting the colormap *)

Section SetColormap.
Import ColormapDialog Qt.

Lemma contains_In (x : string) (l : list string) :
  In x l -> contains x l = true.
Proof.
  intros H. unfold contains. apply existsb_exists.
  exists x. split; [assumption | apply String.eqb_refl].
Qed.

Lemma not_contains_In (x : string) (l : list string) :
  ~ In x l -> contains x l = false.
Proof.
  intros H. unfold contains. apply not_true_is_false.
  rewrite existsb_exists. intros (y & Hy & E).
  apply String.eqb_eq in E. now subst.
Qed.

Lemma index_contains (x : string) (l : list string) (i : nat) :
  index x l = Some i -> contains x l = true.
Proof.
  unfold contains. revert i. induction l as [|y l IH]; intros i; cbn.
  - discriminate.
  - destruct (String.eqb x y); [reflexivity|].
    destruct (index x l) as [j|]; [|discriminate].
    intros _. exact (IH j eq_refl).
Qed.

Lemma currentText_setCurrentIndex (s : state) (i : nat) (label : string) :
  constructed s ->
  map PyStr.capitalize_words _colormapList !! i = Some label ->
  currentText (setCurrentIndex (Z.of_nat i) (_comboBoxColormap s)) = label.
Proof.
  unfold constructed. intros Hc Hl.
  unfold currentText, setCurrentIndex. cbn [currentIndex items].
  rewrite Hc.
  pose proof (lookup_lt_Some _ _ _ Hl) as Hlt.
  replace ((0 <=? Z.of_nat i)%Z
           && (Z.of_nat i
               <? Z.of_nat (length (map PyStr.capitalize_words _colormapList)))%Z)
    with true.
  2:{ symmetry. apply andb_true_iff. split; [apply Z.leb_le | apply Z.ltb_lt]; lia. }
  replace (Z.of_nat i <? 0)%Z with false by (symmetry; apply Z.ltb_ge; lia).
  now rewrite Nat2Z.id, Hl.
Qed.

(** [setChecked] on the autoscale box never raises; the state it leaves. *)
Lemma rangeAutoscaleButton_setChecked_eq (b : bool) (s : state) :
  rangeAutoscaleButton_setChecked b s =
    (Ok tt,
     if Bool.eqb (_rangeAutoscaleButton s) b then s
     else
       let s1 :=
         set_endValue (setEnabled (negb b) (_endValue s))
           (set_startValue (setEnabled (negb b) (_startValue s))
              (set_rangeAutoscaleButton b s)) in
       if b then
         set_endValue
           (_FloatEdit.setValue (snd (_dataRange s)) (_endValue s1))
           (set_startValue
              (_FloatEdit.setValue (fst (_dataRange s)) (_startValue s1)) s1)
       else s1).
Proof.
  unfold rangeAutoscaleButton_setChecked, bind at 1, get.
  destruct (Bool.eqb (_rangeAutoscaleButton s) b); [reflexivity|].
  destruct b; reflexivity.
Qed.

(** C1, as the code has it. Setting all five fields to valid values and
    reading the description back gives the name and the autoscale flag
    exactly, and vmin and vmax as the line edits hold them: the values
    read back from their ['%g'] text, that is, rounded to six significant
    digits. The normalization reads back as set when it is ['linear']. *)
Theorem setColormap_then_getColormap
    (s : state) (name normalization : string) (autoscale : bool)
    (vmin vmax : PyFloat.t) (colors : option Z) :
  constructed s ->
  In name _colormapList ->
  normalization = "linear" \/ normalization = "log" ->
  exists s' c,
    setColormap (Some name) (Some normalization) (Some autoscale)
      (Some vmin) (Some vmax) colors s = (Ok tt, s')
    /\ getColormap s' = (Ok c, s')
    /\ Colormap.name c = name
    /\ Colormap.autoscale c = autoscale
    /\ PyFloat.float (PyFloat.format_g vmin) = Some (Colormap.vmin c)
    /\ PyFloat.float (PyFloat.format_g vmax) = Some (Colormap.vmax c)
    /\ (normalization = "linear" -> Colormap.normalization c = "linear")
    /\ Colormap.colors c = 256%Z.
Proof.
  intros Hc Hname Hnorm. apply contains_In in Hname.
  destruct (colormap_name name Hname) as (i & Hi & Hlabel & Hlower).
  assert (Hn : contains normalization ["linear"; "log"] = true)
    by (destruct Hnorm; subst; reflexivity).
  destruct (float_format_g vmin) as [v Hv], (float_format_g vmax) as [w Hw].
  unfold setColormap.
  unfold bind at 1. unfold bind at 1. rewrite Hname.
  unfold assert, ret at 1. unfold bind at 1. rewrite Hi.
  unfold from_option, ret at 1, modify at 1.
  unfold bind at 1. unfold bind at 1. rewrite Hn.
  unfold assert, ret at 1, modify at 1.
  unfold bind at 1. rewrite rangeAutoscaleButton_setChecked_eq.
  unfold bind at 1, modify at 1, bind at 1, modify at 1.
  match goal with |- context [_notify ?s5] =>
    destruct (_notify_ok s5 v w) as (p & Hp & _); [exact Hv | exact Hw |];
    rewrite Hp; clear Hp
  end.
  eexists _, _. split; [reflexivity|].
  split; [apply getColormap_ok; [exact Hv | exact Hw]|].
  unfold description. cbn [Colormap.name Colormap.normalization
    Colormap.autoscale Colormap.vmin Colormap.vmax Colormap.colors].
  state_simpl.
  pose proof (currentText_setCurrentIndex s i _ Hc Hlabel) as Htext.
  destruct autoscale, (_rangeAutoscaleButton s) eqn:Ha;
    cbn [Bool.eqb negb]; state_simpl; rewrite ?Ha, Htext, Hlower;
    (repeat split; try assumption; try reflexivity);
    intros ->; cbn; destruct (_normButtonLinear s); reflexivity.
Qed.

Lemma setColormap_then_getColormap_witness :
  exists s' c,
    setColormap (Some "red") (Some "linear") (Some false)
      (Some (PyFloat.lit "1.")) (Some (PyFloat.lit "2.")) None dialog0
      = (Ok tt, s')
    /\ getColormap s' = (Ok c, s')
    /\ Colormap.name c = "red".
Proof.
  destruct (setColormap_then_getColormap dialog0 "red" "linear" false
              (PyFloat.lit "1.") (PyFloat.lit "2.") None)
    as (s' & c & Hrun & Hget & Hname & _).
  - reflexivity.
  - cbn. tauto.
  - left. reflexivity.
  - exists s', c. repeat split; assumption.
Defined.

(** C1 fails as stated: [setColormap(name='gray', normalization='linear',
    autoscale=False, vmin=1.2345678, vmax=10.)] is valid, and
    [getColormap()] then returns a vmin that is not the one set (the line
    edit holds [1.23457]). *)
Lemma setColormap_vmin_is_rounded :
  exists s' c,
    setColormap (Some "gray") (Some "linear") (Some false)
      (Some (PyFloat.lit "1.2345678")) (Some (PyFloat.lit "10.")) None
      dialog0 = (Ok tt, s')
    /\ getColormap s' = (Ok c, s')
    /\ text (_startValue s') = "1.23457"
    /\ Colormap.vmin c <> PyFloat.lit "1.2345678".
Proof.
  eexists _, _. split; [vm_compute; reflexivity|].
  split; [vm_compute; reflexivity|].
  split; [vm_compute; reflexivity|].
  vm_compute. discriminate.
Qed.

Lemma getColormap_inv (s s' : state) (c : Colormap.t) :
  getColormap s = (Ok c, s') ->
  exists v w,
    _FloatEdit.value (_startValue s) = Some v
    /\ _FloatEdit.value (_endValue s) = Some w
    /\ c = description s v w /\ s' = s.
Proof.
  unfold getColormap, bind, get, ret.
  rewrite startValue_value_eq.
  destruct (_FloatEdit.value (_startValue s)) as [v|]; [|discriminate].
  rewrite endValue_value_eq.
  destruct (_FloatEdit.value (_endValue s)) as [w|]; [|discriminate].
  intros [= <- <-]. now exists v, w.
Qed.

(** The first two steps of [setColormap] with valid arguments: the combo
    box and the radio buttons they leave. *)
Lemma setColormap_name_step (s : state) (name : option string) :
  constructed s ->
  (forall n, name = Some n -> In n _colormapList) ->
  exists cb,
    (match name with
     | Some name =>
         assert (contains name _colormapList) ;;
         i <- from_option ValueError (index name _colormapList) ;;
         modify (fun s =>
           set_comboBoxColormap
             (setCurrentIndex (Z.of_nat i) (_comboBoxColormap s)) s)
     | None => ret tt
     end) s = (Ok tt, set_comboBoxColormap cb s)
    /\ PyStr.lower (currentText cb)
       = default (PyStr.lower (currentText (_comboBoxColormap s))) name.
Proof.
  intros Hc Hname. destruct name as [n|].
  - pose proof (contains_In _ _ (Hname n eq_refl)) as Hn.
    destruct (colormap_name n Hn) as (i & Hi & Hlabel & Hlower).
    eexists. unfold bind at 1. rewrite Hn. unfold assert, ret.
    unfold bind. rewrite Hi. unfold from_option, ret, modify.
    split; [reflexivity|].
    now rewrite (currentText_setCurrentIndex s i _ Hc Hlabel).
  - exists (_comboBoxColormap s). destruct s; split; reflexivity.
Qed.

Lemma setColormap_normalization_step (s : state) (normalization : option string) :
  (forall m, normalization = Some m -> m = "linear" \/ m = "log") ->
  exists linear log,
    (match normalization with
     | Some normalization =>
         assert (contains normalization ["linear"; "log"]) ;;
         modify (fun s =>
           set_normButtons
             (setChecked_exclusive (String.eqb normalization "linear")
                (_normButtonLinear s) (_normButtonLog s)) s)
     | None => ret tt
     end) s = (Ok tt, set_normButtons (linear, log) s)
    /\ (normalization = None -> linear = _normButtonLinear s)
    /\ (normalization = Some "linear" -> linear = true).
Proof.
  intros Hnorm. destruct normalization as [m|].
  - destruct (Hnorm m eq_refl) as [-> | ->].
    + exists true, (if _normButtonLinear s then _normButtonLog s else false).
      split; [|split; [discriminate | reflexivity]].
      unfold bind, assert, ret, modify. cbn.
      unfold setChecked_exclusive. destruct (_normButtonLinear s); reflexivity.
    + exists (_normButtonLinear s), (_normButtonLog s).
      split; [|split; discriminate].
      unfold bind, assert, ret, modify. cbn.
      unfold setChecked_exclusive. destruct (_normButtonLinear s); reflexivity.
  - exists (_normButtonLinear s), (_normButtonLog s).
    split; [destruct s; reflexivity|]. split; [reflexivity | discriminate].
Qed.

(** C3, as the code has it. With valid arguments, and line edits that
    hold floats, [setColormap] emits exactly one notification, the
    description of the state it leaves. In that description a field
    that was given has the given value (vmin and vmax through their
    ['%g'] text; the normalization when it is ['linear']), and a field
    that was not given keeps its value, but for vmin and vmax when the
    call switches autoscale on: those become the bounds of the data
    range. *)
Theorem setColormap_updates_given_fields
    (s : state) (name normalization : option string)
    (autoscale : option bool) (vmin vmax : option PyFloat.t)
    (colors : option Z) (c0 : Colormap.t) :
  constructed s ->
  getColormap s = (Ok c0, s) ->
  (forall n, name = Some n -> In n _colormapList) ->
  (forall m, normalization = Some m -> m = "linear" \/ m = "log") ->
  let switched_on :=
    match autoscale with
    | Some true => negb (Colormap.autoscale c0)
    | _ => false
    end in
  exists s' c,
    setColormap name normalization autoscale vmin vmax colors s = (Ok tt, s')
    /\ getColormap s' = (Ok c, s')
    /\ sigColormapChanged s' = sigColormapChanged s ++ [c]
    /\ Colormap.name c = default (Colormap.name c0) name
    /\ (normalization = None ->
        Colormap.normalization c = Colormap.normalization c0)
    /\ (normalization = Some "linear" -> Colormap.normalization c = "linear")
    /\ Colormap.autoscale c = default (Colormap.autoscale c0) autoscale
    /\ Some (Colormap.vmin c) =
         match vmin with
         | Some v => PyFloat.float (PyFloat.format_g v)
         | None =>
             if switched_on
             then PyFloat.float (PyFloat.format_g (fst (getDataRange s)))
             else Some (Colormap.vmin c0)
         end
    /\ Some (Colormap.vmax c) =
         match vmax with
         | Some v => PyFloat.float (PyFloat.format_g v)
         | None =>
             if switched_on
             then PyFloat.float (PyFloat.format_g (snd (getDataRange s)))
             else Some (Colormap.vmax c0)
         end
    /\ getDataRange s' = getDataRange s.
Proof.
  intros Hc Hget Hname Hnorm switched_on. subst switched_on.
  apply getColormap_inv in Hget as (v0 & w0 & Hv0 & Hw0 & -> & _).
  destruct (float_format_g (fst (getDataRange s))) as [vr Hvr].
  destruct (float_format_g (snd (getDataRange s))) as [wr Hwr].
  unfold setColormap.
  destruct (setColormap_name_step s name Hc Hname) as (cb & Hrun1 & Hcb).
  unfold bind at 1. rewrite Hrun1. clear Hrun1.
  destruct (setColormap_normalization_step (set_comboBoxColormap cb s)
              normalization Hnorm) as (lin & log & Hrun2 & Hnone & Hlin).
  unfold bind at 1. rewrite Hrun2. clear Hrun2.
  unfold bind at 1.
  assert (Hauto : forall S,
    (match autoscale with
     | Some autoscale => rangeAutoscaleButton_setChecked autoscale
     | None => ret tt
     end) S
    = (Ok tt, match autoscale with
              | Some b => snd (rangeAutoscaleButton_setChecked b S)
              | None => S
              end)).
  { intros S. destruct autoscale as [b|]; [|reflexivity].
    now rewrite rangeAutoscaleButton_setChecked_eq. }
  rewrite Hauto. clear Hauto.
  unfold getDataRange in *.
  destruct autoscale as [[|]|], (_rangeAutoscaleButton s) eqn:Ha;
    try rewrite rangeAutoscaleButton_setChecked_eq;
    state_simpl; rewrite ?Ha; cbn [Bool.eqb negb snd];
    destruct vmin as [vmin|], vmax as [vmax|];
    try destruct (float_format_g vmin) as [v Hv];
    try destruct (float_format_g vmax) as [w Hw].
  all: unfold bind, modify, ret; state_simpl.
  all: match goal with |- context [_notify ?S] =>
         edestruct (_notify_ok S) as (p & Hp & _);
           [ first [exact Hv | exact Hvr | exact Hv0]
           | first [exact Hw | exact Hwr | exact Hw0]
           | rewrite Hp; clear Hp ]
       end.
  all: eexists _, _; split; [reflexivity|].
  all: split;
         [ apply getColormap_ok;
             [ first [exact Hv | exact Hvr | exact Hv0]
             | first [exact Hw | exact Hwr | exact Hw0] ] |].
  all: unfold description;
       cbn [Colormap.name Colormap.normalization Colormap.autoscale
            Colormap.vmin Colormap.vmax Colormap.colors default];
       state_simpl; rewrite ?Ha; cbn [negb].
  all: repeat split; try reflexivity; try assumption;
       try (symmetry; assumption).
  all: try (intros E; rewrite (Hnone E); reflexivity).
  all: try (intros E; rewrite (Hlin E); reflexivity).
Qed.

Lemma setColormap_updates_given_fields_witness :
  exists s' c,
    setColormap (Some "red") None None
      (Some (PyFloat.lit "1.0")) (Some (PyFloat.lit "2.0")) None dialog0
      = (Ok tt, s')
    /\ getColormap s' = (Ok c, s')
    /\ sigColormapChanged s' = sigColormapChanged dialog0 ++ [c]
    /\ Colormap.name c = "red".
Proof.
  destruct (setColormap_updates_given_fields dialog0 (Some "red") None None
              (Some (PyFloat.lit "1.0")) (Some (PyFloat.lit "2.0")) None
              (description dialog0 (PyFloat.lit "1.") (PyFloat.lit "10.")))
    as (s' & c & Hrun & Hget & Hsig & Hname & _).
  - reflexivity.
  - vm_compute. reflexivity.
  - intros n [= <-]. cbn. tauto.
  - intros m [=].
  - exists s', c. repeat split; assumption.
Defined.

(** C3 fails as stated: on the dialog with autoscale unchecked and the
    range [1, 2], [setColormap(autoscale=True)] gives neither vmin nor
    vmax, yet vmax goes from 2 to the data range's 10. *)
Lemma setColormap_autoscale_resets_vmax :
  exists c0 s' c,
    getColormap dialog_manual = (Ok c0, dialog_manual)
    /\ setColormap None None (Some true) None None None dialog_manual
       = (Ok tt, s')
    /\ getColormap s' = (Ok c, s')
    /\ Colormap.vmax c0 = PyFloat.lit "2."
    /\ Colormap.vmax c = PyFloat.lit "10."
    /\ Colormap.vmax c <> Colormap.vmax c0.
Proof.
  eexists _, _, _. split; [vm_compute; reflexivity|].
  split; [vm_compute; reflexivity|].
  split; [vm_compute; reflexivity|].
  split; [vm_compute; reflexivity|].
  split; [vm_compute; reflexivity|].
  vm_compute. discriminate.
Qed.

(** C10, as the code has it. [setColormap] with [autoscale=True] writes a
    given vmin or vmax after the box has reset both line edits to the
    data range, so the description reports the given value as its line
    edit holds it (its ['%g'] text read back, six significant digits),
    whatever the data range is; the given values are not ignored. *)
Theorem setColormap_autoscale_keeps_given_bounds
    (s : state) (name normalization : option string)
    (vmin vmax : option PyFloat.t) (colors : option Z) :
  constructed s ->
  readable s ->
  (forall n, name = Some n -> In n _colormapList) ->
  (forall m, normalization = Some m -> m = "linear" \/ m = "log") ->
  exists s' c,
    setColormap name normalization (Some true) vmin vmax colors s = (Ok tt, s')
    /\ getColormap s' = (Ok c, s')
    /\ Colormap.autoscale c = true
    /\ (forall v, vmin = Some v ->
        text (_startValue s') = PyFloat.format_g v
        /\ PyFloat.float (PyFloat.format_g v) = Some (Colormap.vmin c))
    /\ (forall v, vmax = Some v ->
        text (_endValue s') = PyFloat.format_g v
        /\ PyFloat.float (PyFloat.format_g v) = Some (Colormap.vmax c)).
Proof.
  intros Hc [[v0 Hv0] [w0 Hw0]] Hname Hnorm.
  destruct (float_format_g (fst (_dataRange s))) as [vr Hvr].
  destruct (float_format_g (snd (_dataRange s))) as [wr Hwr].
  unfold setColormap.
  destruct (setColormap_name_step s name Hc Hname) as (cb & Hrun1 & Hcb).
  unfold bind at 1. rewrite Hrun1. clear Hrun1.
  destruct (setColormap_normalization_step (set_comboBoxColormap cb s)
              normalization Hnorm) as (lin & log & Hrun2 & _).
  unfold bind at 1. rewrite Hrun2. clear Hrun2.
  unfold bind at 1. rewrite rangeAutoscaleButton_setChecked_eq.
  destruct (_rangeAutoscaleButton s) eqn:Ha;
    state_simpl; rewrite ?Ha; cbn [Bool.eqb negb];
    destruct vmin as [vmin|], vmax as [vmax|];
    try destruct (float_format_g vmin) as [v Hv];
    try destruct (float_format_g vmax) as [w Hw].
  all: unfold bind, modify, ret; state_simpl.
  all: match goal with |- context [_notify ?S] =>
         edestruct (_notify_ok S) as (p & Hp & _);
           [ first [exact Hv | exact Hvr | exact Hv0]
           | first [exact Hw | exact Hwr | exact Hw0]
           | rewrite Hp; clear Hp ]
       end.
  all: eexists _, _; split; [reflexivity|].
  all: split;
         [ apply getColormap_ok;
             [ first [exact Hv | exact Hvr | exact Hv0]
             | first [exact Hw | exact Hwr | exact Hw0] ] |].
  all: unfold description;
       cbn [Colormap.autoscale Colormap.vmin Colormap.vmax];
       state_simpl; rewrite ?Ha.
  all: repeat split; try reflexivity; try discriminate.
  all: match goal with H : Some _ = Some _ |- _ => injection H as <- end;
       first [reflexivity | assumption].
Qed.

Lemma setColormap_autoscale_keeps_given_bounds_witness :
  exists s' c,
    setColormap None None (Some true)
      (Some (PyFloat.lit "3.")) (Some (PyFloat.lit "4.")) None dialog_manual
      = (Ok tt, s')
    /\ getColormap s' = (Ok c, s')
    /\ text (_startValue s') = PyFloat.format_g (PyFloat.lit "3.").
Proof.
  destruct (setColormap_autoscale_keeps_given_bounds dialog_manual None None
              (Some (PyFloat.lit "3.")) (Some (PyFloat.lit "4.")) None)
    as (s' & c & Hrun & Hget & _ & Hmin & _).
  - reflexivity.
  - split; eexists; vm_compute; reflexivity.
  - intros n [=].
  - intros m [=].
  - exists s', c. repeat split; try assumption.
    apply (Hmin _ eq_refl).
Defined.

(** C10 fails as stated: [setColormap(autoscale=True, vmin=1.2345678,
    vmax=2.)] does not report the given vmin: the line edit holds
    [1.23457], which is neither the given value nor a bound of the data
    range. *)
Lemma setColormap_autoscale_vmin_is_rounded :
  exists s' c,
    setColormap None None (Some true)
      (Some (PyFloat.lit "1.2345678")) (Some (PyFloat.lit "2.")) None
      dialog_manual = (Ok tt, s')
    /\ getColormap s' = (Ok c, s')
    /\ Colormap.autoscale c = true
    /\ text (_startValue s') = "1.23457"
    /\ Colormap.vmin c <> PyFloat.lit "1.2345678".
Proof.
  eexists _, _. split; [vm_compute; reflexivity|].
  split; [vm_compute; reflexivity|].
  split; [vm_compute; reflexivity|].
  split; [vm_compute; reflexivity|].
  vm_compute. discriminate.
Qed.

(** C2, as the code has it. [setColormap] with a name outside
    [_colormapList], or a normalization that is neither ['linear'] nor
    ['log'], raises the assertion error and emits no notification. The
    arguments are checked one after the other, each just before it is
    applied: with an invalid name nothing has changed; with an invalid
    normalization a valid name given along has already been selected in
    the combo box, and nothing else has changed. *)
Theorem setColormap_rejects_invalid
    (s : state) (name normalization : option string)
    (autoscale : option bool) (vmin vmax : option PyFloat.t)
    (colors : option Z) :
  (exists n, name = Some n /\ ~ In n _colormapList)
  \/ (exists m, normalization = Some m /\ m <> "linear" /\ m <> "log") ->
  exists s',
    setColormap name normalization autoscale vmin vmax colors s
      = (Raise AssertionError, s')
    /\ sigColormapChanged s' = sigColormapChanged s
    /\ s' = set_comboBoxColormap (_comboBoxColormap s') s
    /\ ((forall n, name = Some n -> ~ In n _colormapList) -> s' = s)
    /\ (forall n i, name = Some n -> index n _colormapList = Some i ->
        _comboBoxColormap s'
        = setCurrentIndex (Z.of_nat i) (_comboBoxColormap s)).
Proof.
  intros Hbad. unfold setColormap.
  assert (Heta : s = set_comboBoxColormap (_comboBoxColormap s) s)
    by (destruct s; reflexivity).
  destruct name as [n|].
  - destruct (contains n _colormapList) eqn:Hn.
    + (* a valid name: the normalization is the invalid argument *)
      destruct Hbad as [(n' & [= <-] & Hnot) | (m & -> & Hm1 & Hm2)].
      { exfalso. rewrite not_contains_In in Hn by assumption. discriminate. }
      destruct (colormap_name n Hn) as (i & Hi & _).
      assert (Hm : contains m ["linear"; "log"] = false).
      { apply not_contains_In. intros [<-|[<-|[]]]; congruence. }
      unfold bind at 1. unfold bind at 1.
      unfold assert, ret at 1. unfold bind at 1. rewrite Hi.
      unfold from_option, ret at 1, modify at 1.
      unfold bind at 1. unfold bind at 1. rewrite Hm. unfold raise.
      eexists. split; [reflexivity|]. state_simpl.
      repeat split.
      * intros Hall. exfalso. apply (Hall n eq_refl).
        unfold contains in Hn. apply existsb_exists in Hn as (x & Hx & E).
        apply String.eqb_eq in E. now subst.
      * intros n' i' [= <-] Hi'. congruence.
    + unfold bind at 1. unfold bind at 1. unfold assert, raise.
      exists s. repeat split; try assumption.
      intros n' i' [= <-] Hi'. exfalso.
      rewrite (index_contains _ _ _ Hi') in Hn. discriminate.
  - destruct Hbad as [(n' & [=] & _) | (m & -> & Hm1 & Hm2)].
    assert (Hm : contains m ["linear"; "log"] = false).
    { apply not_contains_In. intros [<-|[<-|[]]]; congruence. }
    unfold bind at 1. unfold ret at 1.
    unfold bind at 1. unfold bind at 1. rewrite Hm. unfold assert, raise.
    exists s. repeat split; try assumption. discriminate.
Qed.

Lemma setColormap_rejects_invalid_witness :
  exists s',
    setColormap (Some "viridis") (Some "log") (Some false) None None None
      dialog0 = (Raise AssertionError, s')
    /\ s' = dialog0.
Proof.
  destruct (setColormap_rejects_invalid dialog0 (Some "viridis") (Some "log")
              (Some false) None None None)
    as (s' & Hrun & _ & _ & Hsame & _).
  - left. exists "viridis". split; [reflexivity|].
    cbn. intros H. repeat destruct H as [H|H]; try discriminate H. exact H.
  - exists s'. split; [assumption|].
    apply Hsame. intros n [= <-].
    cbn. intros H. repeat destruct H as [H|H]; try discriminate H. exact H.
Defined.

(** C2 fails as stated: [setColormap(name='red', normalization='cubic')]
    raises, but the valid name has been applied: the description's name
    was [gray] and is now [red]. *)
Lemma setColormap_invalid_normalization_keeps_name :
  exists c0 s' c,
    getColormap dialog0 = (Ok c0, dialog0)
    /\ setColormap (Some "red") (Some "cubic") None None None None dialog0
       = (Raise AssertionError, s')
    /\ getColormap s' = (Ok c, s')
    /\ Colormap.name c0 = "gray"
    /\ Colormap.name c = "red".
Proof.
  eexists _, _, _. split; [vm_compute; reflexivity|].
  split; [vm_compute; reflexivity|].
  split; [vm_compute; reflexivity|].
  split; vm_compute; reflexivity.
Qed.
End SetColormap.

(** ** The autoscale box and the line edits in the user's hands *)

Section UserActions.
Import ColormapDialog Qt.

(** C6, as the code has it. A click on the autoscale box emits exactly
    one notification, the description of the state it leaves, whichever
    way it toggles: the slot of [toggled] emits nothing and [clicked]
    runs [_notify]. Toggling on writes the bounds of the data range into
    both line edits (as ['%g'] text) and disables them; toggling off
    leaves their text as it was and enables them. *)
Theorem click_autoscale_toggles (s : state) :
  readable s ->
  exists s' c,
    click_autoscale s = (Ok tt, s')
    /\ getColormap s' = (Ok c, s')
    /\ sigColormapChanged s' = sigColormapChanged s ++ [c]
    /\ Colormap.autoscale c = negb (_rangeAutoscaleButton s)
    /\ isEnabled (_startValue s') = _rangeAutoscaleButton s
    /\ isEnabled (_endValue s') = _rangeAutoscaleButton s
    /\ (if _rangeAutoscaleButton s then
          text (_startValue s') = text (_startValue s)
          /\ text (_endValue s') = text (_endValue s)
        else
          text (_startValue s') = PyFloat.format_g (fst (getDataRange s))
          /\ text (_endValue s') = PyFloat.format_g (snd (getDataRange s))
          /\ PyFloat.float (PyFloat.format_g (fst (getDataRange s)))
             = Some (Colormap.vmin c)
          /\ PyFloat.float (PyFloat.format_g (snd (getDataRange s)))
             = Some (Colormap.vmax c))
    /\ (forall checked,
          fst (_autoscaleToggled checked s) = Ok tt
          /\ sigColormapChanged (snd (_autoscaleToggled checked s))
             = sigColormapChanged s).
Proof.
  intros [[v0 Hv0] [w0 Hw0]].
  destruct (float_format_g (fst (_dataRange s))) as [vr Hvr].
  destruct (float_format_g (snd (_dataRange s))) as [wr Hwr].
  unfold click_autoscale, getDataRange, bind at 1, get.
  unfold bind at 1. rewrite rangeAutoscaleButton_setChecked_eq.
  destruct (_rangeAutoscaleButton s) eqn:Ha; cbn [Bool.eqb negb];
    state_simpl.
  all: match goal with |- context [_notify ?S] =>
         edestruct (_notify_ok S) as (p & Hp & _);
           [ first [exact Hvr | exact Hv0]
           | first [exact Hwr | exact Hw0]
           | rewrite Hp; clear Hp ]
       end.
  all: eexists _, _; split; [reflexivity|].
  all: split;
         [ apply getColormap_ok;
             [ first [exact Hvr | exact Hv0]
             | first [exact Hwr | exact Hw0] ] |].
  all: unfold description; cbn [Colormap.autoscale Colormap.vmin Colormap.vmax];
       state_simpl.
  all: repeat split; try reflexivity; try assumption.
  all: destruct checked; reflexivity.
Qed.

Lemma click_autoscale_toggles_witness :
  exists s' c,
    click_autoscale dialog_manual = (Ok tt, s')
    /\ sigColormapChanged s' = sigColormapChanged dialog_manual ++ [c]
    /\ Colormap.autoscale c = true.
Proof.
  destruct (click_autoscale_toggles dialog_manual)
    as (s' & c & Hrun & _ & Hsig & Hauto & _).
  - split; eexists; vm_compute; reflexivity.
  - exists s', c. repeat split; assumption.
Defined.

(** C6 fails as stated: unchecking the autoscale box does fire a
    notification. On the new dialog, where it is checked, a click
    unchecks it and one notification is emitted; so does
    [setColormap(autoscale=False)]. Nor is it the toggle that notifies
    when the box is checked: [_autoscaleToggled(True)] emits nothing. *)
Lemma autoscale_off_notifies :
  _rangeAutoscaleButton dialog0 = true
  /\ (exists s' c,
        click_autoscale dialog0 = (Ok tt, s')
        /\ _rangeAutoscaleButton s' = false
        /\ sigColormapChanged s' = sigColormapChanged dialog0 ++ [c])
  /\ (exists s' c,
        setColormap None None (Some false) None None None dialog0 = (Ok tt, s')
        /\ _rangeAutoscaleButton s' = false
        /\ sigColormapChanged s' = sigColormapChanged dialog0 ++ [c])
  /\ (exists s',
        _autoscaleToggled true dialog_manual = (Ok tt, s')
        /\ sigColormapChanged s' = sigColormapChanged dialog_manual).
Proof.
  split; [reflexivity|].
  split; [|split].
  - eexists _, _. split; [vm_compute; reflexivity|].
    split; vm_compute; reflexivity.
  - eexists _, _. split; [vm_compute; reflexivity|].
    split; vm_compute; reflexivity.
  - eexists. split; vm_compute; reflexivity.
Qed.




End UserActions.

(** ** The histogram *)

Section Histogram.
Import ColormapDialog Qt.

Lemma new_ref_fresh (m : Numpy.memory) : m !! Numpy.new_ref m = None.
Proof. unfold Numpy.new_ref. apply not_elem_of_dom. apply is_fresh. Qed.

Lemma new_ref_ne (m : Numpy.memory) (a : Numpy.ref) (v : Numpy.ndarray) :
  m !! a = Some v -> Numpy.new_ref m <> a.
Proof. intros H E. rewrite <- E, new_ref_fresh in H. discriminate. Qed.

Lemma numpy_array_eq (a : Numpy.ref) (v : Numpy.ndarray) (s : state) :
  memory s !! a = Some v ->
  numpy_array a s =
    (Ok (Numpy.new_ref (memory s)),
     set_memory (<[Numpy.new_ref (memory s) := v]> (memory s)) s).
Proof.
  intros H. unfold numpy_array, bind at 1, get, Numpy.array_copy.
  rewrite H. reflexivity.
Qed.

Lemma elements_eq (a : Numpy.ref) (v : Numpy.ndarray) (s : state) :
  memory s !! a = Some v -> elements a s = (Ok v, s).
Proof. intros H. unfold elements, bind, get. now rewrite H. Qed.

(** What [setDataRange] keeps when its assertion holds. *)
Lemma setDataRange_frame (s : state) (min_ max_ : PyFloat.t) :
  PyFloat.le min_ max_ = true ->
  exists r s',
    setDataRange min_ max_ s = (r, s')
    /\ _dataRange s' = (min_, max_)
    /\ memory s' = memory s
    /\ _histogramData s' = _histogramData s
    /\ Plot.curves (_plot s') !! "Histogram"
       = Plot.curves (_plot s) !! "Histogram"
    /\ (_rangeAutoscaleButton s = true \/ readable s -> r = Ok tt).
Proof.
  intros Hle. unfold setDataRange, bind at 1. rewrite Hle.
  unfold assert, ret, bind at 1, modify at 1, bind at 1, get.
  state_simpl.
  destruct (_rangeAutoscaleButton s) eqn:Hauto.
  - unfold bind at 1, modify at 1, bind at 1, modify at 1. state_simpl.
    destruct (float_format_g min_) as [v Hv], (float_format_g max_) as [w Hw].
    match goal with |- context [_notify ?s1] =>
      destruct (_notify_ok s1 v w Hv Hw) as (p & Hp & Hh); rewrite Hp
    end.
    eexists _, _. split; [reflexivity|]. state_simpl. repeat split.
    exact Hh.
  - destruct (readable_cases (set_dataRange (min_, max_) s))
      as [(v & w & Hv & Hw)|Hn].
    + destruct (_plotUpdate_ok _ v w Hv Hw) as (p & Hp & Hh). rewrite Hp.
      eexists _, _. split; [reflexivity|]. state_simpl. repeat split.
      exact Hh.
    + rewrite (_plotUpdate_raises _ Hn).
      eexists _, _. split; [reflexivity|]. state_simpl. repeat split.
      intros [Hr|Hr]; [discriminate | contradiction].
Qed.

(** [setDataRange] while autoscale is unchecked and a line edit holds no
    float: the range is stored, then [_plotUpdate] raises. *)
Lemma setDataRange_raises (s : state) (min_ max_ : PyFloat.t) :
  PyFloat.le min_ max_ = true ->
  _rangeAutoscaleButton s = false ->
  ~ readable s ->
  setDataRange min_ max_ s = (Raise ValueError, set_dataRange (min_, max_) s).
Proof.
  intros Hle Ha Hn. unfold setDataRange, bind at 1. rewrite Hle.
  unfold assert, ret, bind at 1, modify at 1, bind at 1, get.
  state_simpl. rewrite Ha.
  now apply _plotUpdate_raises.
Qed.

(** [setHistogram] with both arrays, up to the call of [setDataRange]:
    the copies it stores and the curve it draws. *)
Lemma setHistogram_eq
    (s : state) (hist bin_edges : Numpy.ref) (counts edges : Numpy.ndarray)
    (top first last_ : PyFloat.t) :
  memory s !! hist = Some counts ->
  memory s !! bin_edges = Some edges ->
  Numpy.max counts = Some top ->
  head edges = Some first ->
  last edges = Some last_ ->
  let a := Numpy.new_ref (memory s) in
  let m1 := <[a := counts]> (memory s) in
  let b := Numpy.new_ref m1 in
  let m2 := <[b := edges]> m1 in
  setHistogram (Some hist) (Some bin_edges) s =
    setDataRange first last_
      (set_plot
         (Plot.addCurve
            (map (PyFloat.mul f0_5)
               (zip_with PyFloat.add (removelast edges) (tail edges)))
            (map (fun c => PyFloat.div c top) counts) "Histogram" (_plot s))
         (set_histogramData (Some (a, b)) (set_memory m2 s)))
  /\ m2 !! a = Some counts /\ m2 !! b = Some edges
  /\ a <> hist /\ a <> bin_edges /\ b <> hist /\ b <> bin_edges /\ a <> b.
Proof.
  intros Hh He Hmax Hfirst Hlast a m1 b m2.
  assert (Hah : a <> hist) by (eapply new_ref_ne; eassumption).
  assert (Hae : a <> bin_edges) by (eapply new_ref_ne; eassumption).
  assert (He1 : m1 !! bin_edges = Some edges)
    by (subst m1; now rewrite lookup_insert_ne).
  assert (Hh1 : m1 !! hist = Some counts)
    by (subst m1; now rewrite lookup_insert_ne).
  assert (Ha1 : m1 !! a = Some counts)
    by (subst m1; now rewrite lookup_insert_eq).
  assert (Hbh : b <> hist) by (eapply new_ref_ne; eassumption).
  assert (Hbe : b <> bin_edges) by (eapply new_ref_ne; eassumption).
  assert (Hba : b <> a) by (eapply new_ref_ne; eassumption).
  assert (Ha2 : m2 !! a = Some counts)
    by (subst m2; now rewrite lookup_insert_ne).
  assert (Hb2 : m2 !! b = Some edges)
    by (subst m2; now rewrite lookup_insert_eq).
  split; [|repeat split; auto].
  subst m2 b m1 a. unfold setHistogram.
  unfold bind at 1. rewrite (numpy_array_eq hist counts s Hh).
  unfold bind at 1.
  rewrite (numpy_array_eq bin_edges edges (set_memory _ s) He1).
  unfold bind at 1, modify at 1. state_simpl.
  unfold bind at 1.
  rewrite (elements_eq _ counts (set_histogramData _ (set_memory _ s)) Ha2).
  unfold bind at 1.
  rewrite (elements_eq _ edges (set_histogramData _ (set_memory _ s)) Hb2).
  unfold bind at 1. rewrite Hmax. unfold from_option at 1, ret at 1.
  unfold bind at 1, modify at 1.
  unfold bind at 1. rewrite Hfirst. unfold from_option at 1, ret at 1.
  unfold bind at 1. rewrite Hlast. unfold from_option at 1, ret at 1.
  state_simpl. reflexivity.
Qed.

Lemma getHistogram_eq
    (s : state) (a b : positive) (counts edges : list PyFloat.t) :
  _histogramData s = Some (a, b) ->
  memory s !! a = Some counts ->
  memory s !! b = Some edges ->
  let a' := Numpy.new_ref (memory s) in
  let m1 := <[a' := counts]> (memory s) in
  let b' := Numpy.new_ref m1 in
  getHistogram s = (Ok (Some (a', b')), set_memory (<[b' := edges]> m1) s)
  /\ (<[b' := edges]> m1) !! a' = Some counts
  /\ (<[b' := edges]> m1) !! b' = Some edges
  /\ memory s !! a' = None /\ memory s !! b' = None.
Proof.
  intros Hd Ha Hb a' m1 b'.
  assert (Hb1 : m1 !! b = Some edges).
  { subst m1. rewrite lookup_insert_ne; [assumption|].
    eapply new_ref_ne; eassumption. }
  assert (Ha1 : m1 !! a' = Some counts)
    by (subst m1; now rewrite lookup_insert_eq).
  assert (Hne : b' <> a') by (eapply new_ref_ne; eassumption).
  assert (Hfb : m1 !! b' = None) by apply new_ref_fresh.
  repeat split.
  - subst b' m1 a'. unfold getHistogram, bind at 1, get. rewrite Hd.
    unfold bind at 1. rewrite (numpy_array_eq a counts s Ha).
    unfold bind at 1.
    rewrite (numpy_array_eq b edges (set_memory _ s) Hb1).
    reflexivity.
  - now rewrite lookup_insert_ne.
  - now rewrite lookup_insert_eq.
  - apply new_ref_fresh.
  - subst m1. apply lookup_insert_None in Hfb. tauto.
Qed.

(** C8. With both arrays given (a histogram of at least one bin, whose
    first edge is not above the last), [setHistogram] stores copies: the
    data range becomes [(bin_edges[0], bin_edges[-1])], and whatever the
    caller then writes into the two arrays it passed, [getHistogram]
    returns two new arrays holding the counts and edges as they were
    passed. With either argument [None] the histogram is cleared and
    [getHistogram] returns [None]. *)
Theorem setHistogram_then_getHistogram (s : state) :
  (forall (hist bin_edges : positive) (counts edges : list PyFloat.t)
          (first last_ : PyFloat.t),
     memory s !! hist = Some counts ->
     memory s !! bin_edges = Some edges ->
     counts <> [] ->
     head edges = Some first ->
     last edges = Some last_ ->
     PyFloat.le first last_ = true ->
     exists r s',
       setHistogram (Some hist) (Some bin_edges) s = (r, s')
       /\ (_rangeAutoscaleButton s = true \/ readable s -> r = Ok tt)
       /\ getDataRange s' = (first, last_)
       /\ forall m : gmap positive (list PyFloat.t),
            (forall l, l <> hist -> l <> bin_edges ->
                       m !! l = memory s' !! l) ->
            exists a b s'',
              getHistogram (set_memory m s') = (Ok (Some (a, b)), s'')
              /\ memory s'' !! a = Some counts
              /\ memory s'' !! b = Some edges
              /\ m !! a = None
              /\ m !! b = None)
  /\ (forall hist bin_edges : option positive,
        hist = None \/ bin_edges = None ->
        exists s',
          setHistogram hist bin_edges s = (Ok tt, s')
          /\ getHistogram s' = (Ok None, s')).
Proof.
  split.
  - intros hist bin_edges counts edges first last_ Hh He Hne Hfirst Hlast Hle.
    assert (exists top, Numpy.max counts = Some top) as [top Hmax]
      by (destruct counts; [contradiction | eexists; reflexivity]).
    destruct (setHistogram_eq s hist bin_edges counts edges top first last_
                Hh He Hmax Hfirst Hlast)
      as (Hrun & Ha2 & Hb2 & Hah & Hae & Hbh & Hbe & _).
    rewrite Hrun. clear Hrun.
    match goal with |- context [setDataRange first last_ ?S] =>
      destruct (setDataRange_frame S first last_ Hle)
        as (r & s' & Hrun & Hrange & Hmem & Hdata & _ & Hok)
    end.
    state_simpl. exists r, s'. split; [exact Hrun|].
    split; [exact Hok|]. split; [exact Hrange|].
    intros m Hm.
    edestruct (getHistogram_eq (set_memory m s')) as (Hget & Ha & Hb & Hfa & Hfb).
    + state_simpl. exact Hdata.
    + state_simpl. rewrite Hm, Hmem by assumption. exact Ha2.
    + state_simpl. rewrite Hm, Hmem by assumption. exact Hb2.
    + state_simpl. eexists _, _, _. split; [exact Hget|].
      state_simpl. repeat split; assumption.
  - intros hist bin_edges Hnone.
    assert (Hrun : setHistogram hist bin_edges s
                   = (Ok tt,
                      set_plot (Plot.removeCurve "Histogram" (_plot s))
                        (set_histogramData None s)))
      by (destruct Hnone as [-> | ->]; [|destruct hist]; reflexivity).
    rewrite Hrun. eexists. split; reflexivity.
Qed.

Lemma setHistogram_then_getHistogram_witness :
  exists r s',
    setHistogram (Some 1%positive) (Some 2%positive) dialog_arrays = (r, s')
    /\ getDataRange s' = (PyFloat.lit "0", PyFloat.lit "3").
Proof.
  destruct (setHistogram_then_getHistogram dialog_arrays) as [H _].
  destruct (H 1%positive 2%positive
              [PyFloat.lit "1"; PyFloat.lit "2"; PyFloat.lit "3"]
              [PyFloat.lit "0"; PyFloat.lit "1"; PyFloat.lit "2";
               PyFloat.lit "3"]
              (PyFloat.lit "0") (PyFloat.lit "3"))
    as (r & s' & Hrun & _ & Hrange & _).
  - vm_compute. reflexivity.
  - vm_compute. reflexivity.
  - discriminate.
  - vm_compute. reflexivity.
  - vm_compute. reflexivity.
  - vm_compute. reflexivity.
  - exists r, s'. split; assumption.
Defined.

Lemma is_zero_inv (c : PyFloat.t) :
  PyFloat.eqb c PyFloat.zero = true -> exists sg, c = S754_zero sg.
Proof.
  destruct c as [sg|sg| |sg m e]; cbn; try discriminate.
  - intros _. now exists sg.
  - destruct sg; discriminate.
  - destruct sg; discriminate.
Qed.

Lemma max_zeros (counts : list PyFloat.t) :
  counts <> [] ->
  Forall (fun c => PyFloat.eqb c PyFloat.zero = true) counts ->
  exists sg, Numpy.max counts = Some (S754_zero sg).
Proof.
  intros Hne Hz. destruct counts as [|x r]; [contradiction|].
  inversion Hz as [|? ? Hx Hr]; subst.
  apply is_zero_inv in Hx as [sg ->]. exists sg. cbn. f_equal.
  clear Hne Hz. induction Hr as [|y r Hy _ IH]; [reflexivity|].
  apply is_zero_inv in Hy as [sy ->]. exact IH.
Qed.

(** C9, as the code has it. For a histogram whose counts are all zero
    (at least one count, the first edge not above the last), the division
    of the counts by their largest, zero, raises nothing: it gives NaN,
    and [setHistogram] draws the curve with NaN heights, not with heights
    of zero. In every state the copies are stored and the data range
    becomes [(bin_edges[0], bin_edges[-1])]. The call returns normally
    when autoscale is checked or the line edits hold floats; with
    autoscale unchecked and a line edit that holds no float it raises
    [ValueError], out of [_plotUpdate], after these updates. *)
Theorem setHistogram_all_zero_counts
    (s : state) (hist bin_edges : positive) (counts edges : list PyFloat.t)
    (first last_ : PyFloat.t) :
  memory s !! hist = Some counts ->
  memory s !! bin_edges = Some edges ->
  counts <> [] ->
  Forall (fun c => PyFloat.eqb c PyFloat.zero = true) counts ->
  head edges = Some first ->
  last edges = Some last_ ->
  PyFloat.le first last_ = true ->
  exists r s',
    setHistogram (Some hist) (Some bin_edges) s = (r, s')
    /\ (_rangeAutoscaleButton s = true \/ readable s -> r = Ok tt)
    /\ (_rangeAutoscaleButton s = false -> ~ readable s ->
        r = Raise ValueError)
    /\ getDataRange s' = (first, last_)
    /\ (exists a b,
          _histogramData s' = Some (a, b)
          /\ memory s' !! a = Some counts
          /\ memory s' !! b = Some edges)
    /\ (exists x,
          Plot.curves (_plot s') !! "Histogram"
          = Some {| Plot.curve_x := x;
                    Plot.curve_y := map (fun _ => PyFloat.nan) counts |}).
Proof.
  intros Hh He Hne Hz Hfirst Hlast Hle.
  destruct (max_zeros counts Hne Hz) as [sg Hmax].
  destruct (setHistogram_eq s hist bin_edges counts edges _ first last_
              Hh He Hmax Hfirst Hlast)
    as (Hrun & Ha2 & Hb2 & _).
  rewrite Hrun. clear Hrun.
  match goal with |- context [setDataRange first last_ ?S] =>
    destruct (setDataRange_frame S first last_ Hle)
      as (r & s' & Hrun & Hrange & Hmem & Hdata & Hcurve & Hok);
    pose proof (setDataRange_raises S first last_ Hle) as Hraise
  end.
  state_simpl. exists r, s'. split; [exact Hrun|].
  split; [exact Hok|]. split.
  { intros Ha Hn. rewrite (Hraise Ha Hn) in Hrun. now injection Hrun as <- _. }
  split; [exact Hrange|]. split.
  - eexists _, _. split; [exact Hdata|]. rewrite Hmem. split; assumption.
  - eexists. rewrite Hcurve. cbn [Plot.curves Plot.addCurve].
    rewrite lookup_insert_eq. do 2 f_equal.
    clear - Hz. induction Hz as [|c l Hc _ IH]; [reflexivity|].
    cbn [map]. rewrite IH. f_equal.
    apply is_zero_inv in Hc as [sc ->]. reflexivity.
Qed.

Lemma setHistogram_all_zero_counts_witness :
  exists s',
    setHistogram (Some 3%positive) (Some 2%positive) dialog_arrays
      = (Ok tt, s')
    /\ getDataRange s' = (PyFloat.lit "0", PyFloat.lit "3").
Proof.
  destruct (setHistogram_all_zero_counts dialog_arrays 3%positive 2%positive
              [PyFloat.lit "0"; PyFloat.lit "0"; PyFloat.lit "0"]
              [PyFloat.lit "0"; PyFloat.lit "1"; PyFloat.lit "2";
               PyFloat.lit "3"]
              (PyFloat.lit "0") (PyFloat.lit "3"))
    as (r & s' & Hrun & Hok & _ & Hrange & _).
  - vm_compute. reflexivity.
  - vm_compute. reflexivity.
  - discriminate.
  - repeat constructor.
  - vm_compute. reflexivity.
  - vm_compute. reflexivity.
  - vm_compute. reflexivity.
  - exists s'. rewrite Hok in Hrun; [|left; reflexivity].
    split; assumption.
Defined.

(** C9 fails as stated. [setHistogram] with the counts [0, 0, 0] on the
    new dialog returns, but the normalization is no no-op and the curve
    is not of height zero: the heights it draws are NaN. And the call
    does not complete in every state: while the user has typed a lone
    sign into a line edit (autoscale unchecked), the same call raises
    [ValueError]. *)
Lemma setHistogram_zero_counts_draws_nan :
  (exists s' c,
     setHistogram (Some 3%positive) (Some 2%positive) dialog_arrays
       = (Ok tt, s')
     /\ Plot.curves (_plot s') !! "Histogram" = Some c
     /\ Plot.curve_y c = [PyFloat.nan; PyFloat.nan; PyFloat.nan]
     /\ Plot.curve_y c
        <> [PyFloat.lit "0"; PyFloat.lit "0"; PyFloat.lit "0"])
  /\ exists s',
       setHistogram (Some 3%positive) (Some 2%positive)
         (set_memory arrays dialog_typing) = (Raise ValueError, s').
Proof.
  split.
  - eexists _, _. split; [vm_compute; reflexivity|].
    split; [vm_compute; reflexivity|].
    split; [reflexivity | discriminate].
  - eexists. vm_compute. reflexivity.
Qed.
End Histogram.

(** ** The new dialog, and the normalization *)

Section Construction.
Import ColormapDialog Qt.

(** X1. [ColormapDialog()] returns normally and leaves the defaults: colormap
    [gray], normalization [linear], autoscale checked, the range 1 to 10
    in the line edits and as data range, 256 colors; it has emitted one
    notification, that description. *)
Theorem init_defaults :
  exists c,
    __init__ (object_new ∅) = (Ok tt, dialog0)
    /\ getColormap dialog0 = (Ok c, dialog0)
    /\ c = {| Colormap.name := "gray"; Colormap.normalization := "linear";
              Colormap.autoscale := true;
              Colormap.vmin := PyFloat.lit "1.";
              Colormap.vmax := PyFloat.lit "10.";
              Colormap.colors := 256 |}
    /\ getDataRange dialog0 = (PyFloat.lit "1.", PyFloat.lit "10.")
    /\ sigColormapChanged dialog0 = [c]
    /\ constructed dialog0
    /\ readable dialog0.
Proof.
  eexists. split; [vm_compute; reflexivity|].
  split; [vm_compute; reflexivity|].
  split; [vm_compute; reflexivity|].
  split; [vm_compute; reflexivity|].
  split; [vm_compute; reflexivity|].
  split; [reflexivity|].
  split; eexists; vm_compute; reflexivity.
Qed.

(** X2. The session of the module's docstring: after
    [setColormap(name='red', normalization='log', autoscale=False,
    vmin=1., vmax=2.)] and [setDataRange(1., 100.)], [getColormap()]
    returns the dict the docstring prints, normalization ['linear']
    included. *)
Example docstring_session :
  exists s1 s2,
    setColormap (Some "red") (Some "log") (Some false)
      (Some (PyFloat.lit "1.")) (Some (PyFloat.lit "2.")) None dialog0
      = (Ok tt, s1)
    /\ setDataRange (PyFloat.lit "1.") (PyFloat.lit "100.") s1 = (Ok tt, s2)
    /\ getColormap s2 =
         (Ok {| Colormap.name := "red"; Colormap.normalization := "linear";
                Colormap.autoscale := false;
                Colormap.vmin := PyFloat.lit "1.0";
                Colormap.vmax := PyFloat.lit "2.0";
                Colormap.colors := 256 |}, s2).
Proof.
  eexists _, _. split; [vm_compute; reflexivity|].
  split; [vm_compute; reflexivity|].
  vm_compute. reflexivity.
Qed.

(** X3. [setColormap(normalization='log')] does not select the logarithmic
    normalization while the [Linear] button is checked: it only calls
    [setChecked(False)] on that button, which an exclusive group
    ignores. The description still says ['linear']. *)
Theorem setColormap_log_keeps_linear
    (s : state) (autoscale : option bool) (vmin vmax : option PyFloat.t)
    (colors : option Z) :
  _normButtonLinear s = true ->
  readable s ->
  exists s' c,
    setColormap None (Some "log") autoscale vmin vmax colors s = (Ok tt, s')
    /\ getColormap s' = (Ok c, s')
    /\ Colormap.normalization c = "linear".
Proof.
  intros Hlin [[v0 Hv0] [w0 Hw0]].
  destruct (float_format_g (fst (_dataRange s))) as [vr Hvr].
  destruct (float_format_g (snd (_dataRange s))) as [wr Hwr].
  unfold setColormap.
  unfold bind at 1, ret at 1. unfold bind at 1, bind at 1.
  cbn [contains existsb String.eqb Ascii.eqb Bool.eqb orb assert].
  unfold ret at 1, modify at 1. rewrite Hlin.
  cbn [setChecked_exclusive String.eqb Ascii.eqb Bool.eqb].
  unfold bind at 1.
  assert (Hauto : forall S,
    (match autoscale with
     | Some autoscale => rangeAutoscaleButton_setChecked autoscale
     | None => ret tt
     end) S
    = (Ok tt, match autoscale with
              | Some b => snd (rangeAutoscaleButton_setChecked b S)
              | None => S
              end)).
  { intros S. destruct autoscale as [b|]; [|reflexivity].
    now rewrite rangeAutoscaleButton_setChecked_eq. }
  rewrite Hauto. clear Hauto.
  destruct autoscale as [[|]|], (_rangeAutoscaleButton s) eqn:Ha;
    try rewrite rangeAutoscaleButton_setChecked_eq;
    state_simpl; rewrite ?Ha; cbn [Bool.eqb negb snd];
    destruct vmin as [vmin|], vmax as [vmax|];
    try destruct (float_format_g vmin) as [v Hv];
    try destruct (float_format_g vmax) as [w Hw].
  all: unfold bind, modify, ret; state_simpl.
  all: match goal with |- context [_notify ?S] =>
         edestruct (_notify_ok S) as (p & Hp & _);
           [ first [exact Hv | exact Hvr | exact Hv0]
           | first [exact Hw | exact Hwr | exact Hw0]
           | rewrite Hp; clear Hp ]
       end.
  all: eexists _, _; split; [reflexivity|].
  all: split;
         [ apply getColormap_ok;
             [ first [exact Hv | exact Hvr | exact Hv0]
             | first [exact Hw | exact Hwr | exact Hw0] ] |].
  all: unfold description; cbn [Colormap.normalization]; state_simpl.
  all: reflexivity.
Qed.

Lemma setColormap_log_keeps_linear_witness :
  exists s' c,
    setColormap None (Some "log") None None None None dialog0 = (Ok tt, s')
    /\ getColormap s' = (Ok c, s')
    /\ Colormap.normalization c = "linear".
Proof.
  apply (setColormap_log_keeps_linear dialog0 None None None None).
  - reflexivity.
  - split; eexists; vm_compute; reflexivity.
Defined.


End Construction.

(** ** What every method keeps *)

Section Invariant.
Import ColormapDialog Qt.

Lemma kept_refl (s : state) : kept s s.
Proof. unfold kept. auto. Qed.

Lemma kept_trans (s1 s2 s3 : state) : kept s1 s2 -> kept s2 s3 -> kept s1 s3.
Proof.
  unfold kept. intros (Hi & Hs & He) (Hi' & Hs' & He').
  split; [congruence|].
  split.
  - destruct Hs' as [E|[v E]]; [rewrite E; exact Hs | right; now exists v].
  - destruct He' as [E|[v E]]; [rewrite E; exact He | right; now exists v].
Qed.

Lemma keeps_ret {A} (a : A) : keeps (ret a).
Proof. intros s. apply kept_refl. Qed.

Lemma keeps_raise {A} (e : exn) : keeps (@raise A e).
Proof. intros s. apply kept_refl. Qed.

Lemma keeps_get : keeps get.
Proof. intros s. apply kept_refl. Qed.

Lemma keeps_bind {A B} (m : M A) (k : A -> M B) :
  keeps m -> (forall a, keeps (k a)) -> keeps (bind m k).
Proof.
  intros Hm Hk s. unfold bind. specialize (Hm s).
  destruct (m s) as [[a|e] s1]; cbn [snd] in *; [|exact Hm].
  eapply kept_trans; [exact Hm | apply Hk].
Qed.

Lemma keeps_modify (f : state -> state) :
  (forall s, kept s (f s)) -> keeps (modify f).
Proof. intros H s. apply H. Qed.

Lemma keeps_assert (b : bool) : keeps (assert b).
Proof. destruct b; [apply keeps_ret | apply keeps_raise]. Qed.

Lemma keeps_from_option {A} (e : exn) (o : option A) :
  keeps (from_option e o).
Proof. destruct o; [apply keeps_ret | apply keeps_raise]. Qed.

Local Ltac keeps_step :=
  first
    [ apply keeps_bind; [|intros ?]
    | apply keeps_ret
    | apply keeps_raise
    | apply keeps_get
    | apply keeps_assert
    | apply keeps_from_option
    | apply keeps_modify; intros ?; unfold kept; state_simpl;
      cbn [setEnabled setCurrentIndex _FloatEdit.setValue setText text items];
      solve [eauto 6] ].

Lemma keeps_startValue_value : keeps startValue_value.
Proof. unfold startValue_value. repeat keeps_step. Qed.

Lemma keeps_endValue_value : keeps endValue_value.
Proof. unfold endValue_value. repeat keeps_step. Qed.

Lemma keeps_plotUpdate : keeps _plotUpdate.
Proof.
  unfold _plotUpdate. apply keeps_bind; [apply keeps_get | intros s0].
  destruct (getDataRange s0).
  apply keeps_bind; [apply keeps_startValue_value | intros v].
  apply keeps_bind; [apply keeps_endValue_value | intros w].
  destruct (PyFloat.lt v w);
    repeat first [apply keeps_startValue_value | apply keeps_endValue_value
                 | keeps_step].
Qed.

Lemma keeps_getColormap : keeps getColormap.
Proof.
  unfold getColormap.
  repeat first [apply keeps_startValue_value | apply keeps_endValue_value
               | keeps_step].
Qed.

Lemma keeps_notify : keeps _notify.
Proof.
  unfold _notify.
  repeat first [apply keeps_plotUpdate | apply keeps_getColormap | keeps_step].
Qed.

Lemma keeps_autoscaleToggled (checked : bool) : keeps (_autoscaleToggled checked).
Proof. unfold _autoscaleToggled. destruct checked; repeat keeps_step. Qed.

Lemma keeps_rangeAutoscaleButton_setChecked (b : bool) :
  keeps (rangeAutoscaleButton_setChecked b).
Proof.
  unfold rangeAutoscaleButton_setChecked.
  apply keeps_bind; [apply keeps_get | intros s0].
  destruct (Bool.eqb (_rangeAutoscaleButton s0) b);
    repeat first [apply keeps_autoscaleToggled | keeps_step].
Qed.

Lemma keeps_setDataRange (min_ max_ : PyFloat.t) : keeps (setDataRange min_ max_).
Proof.
  unfold setDataRange.
  do 2 (apply keeps_bind; [keeps_step | intros ?]).
  apply keeps_bind; [apply keeps_get | intros s0].
  destruct (_rangeAutoscaleButton s0);
    repeat first [apply keeps_notify | apply keeps_plotUpdate | keeps_step].
Qed.

Lemma keeps_setColormap (name normalization : option string)
    (autoscale : option bool) (vmin vmax : option PyFloat.t)
    (colors : option Z) :
  keeps (setColormap name normalization autoscale vmin vmax colors).
Proof.
  unfold setColormap.
  destruct name, normalization, autoscale, vmin, vmax;
    repeat first [apply keeps_notify
                 | apply keeps_rangeAutoscaleButton_setChecked | keeps_step].
Qed.

Lemma keeps_numpy_array (a : positive) : keeps (numpy_array a).
Proof. unfold numpy_array. repeat keeps_step. Qed.

Lemma keeps_getHistogram : keeps getHistogram.
Proof.
  unfold getHistogram. apply keeps_bind; [apply keeps_get | intros s0].
  destruct (_histogramData s0) as [[bins counts]|];
    repeat first [apply keeps_numpy_array | keeps_step].
Qed.

Lemma keeps_setHistogram (hist bin_edges : option positive) :
  keeps (setHistogram hist bin_edges).
Proof.
  unfold setHistogram, elements.
  destruct hist, bin_edges;
    repeat first [apply keeps_numpy_array | apply keeps_setDataRange
                 | keeps_step].
Qed.

Lemma keeps_click_autoscale : keeps click_autoscale.
Proof.
  unfold click_autoscale.
  repeat first [apply keeps_notify
               | apply keeps_rangeAutoscaleButton_setChecked | keeps_step].
Qed.

Lemma keeps_click_norm (log : bool) : keeps (click_norm log).
Proof. unfold click_norm. repeat first [apply keeps_notify | keeps_step]. Qed.

Lemma keeps_finish_editing : keeps finish_editing.
Proof.
  unfold finish_editing, _minMaxEditingFinished.
  apply keeps_bind; [apply keeps_get | intros s0].
  destruct (_minMaxWasEdited s0);
    repeat first [apply keeps_notify | keeps_step].
Qed.

Lemma kept_invariant (s s' : state) :
  kept s s' -> constructed s -> readable s -> constructed s' /\ readable s'.
Proof.
  unfold kept, constructed, readable, _FloatEdit.value.
  intros (Hi & Hs & He) Hc [Hrs Hre]. split; [congruence|].
  split.
  - destruct Hs as [->|[v ->]]; [assumption | apply float_format_g].
  - destruct He as [->|[v ->]]; [assumption | apply float_format_g].
Qed.

(** X6. On a constructed dialog whose line edits hold floats, every public
    method and every click leaves a constructed dialog whose line edits
    hold floats, with any arguments and whether it returns or raises:
    only the user's typing can leave a text that is not a float. *)
Theorem methods_keep_line_edits_readable (s : state) :
  constructed s ->
  readable s ->
  (forall name normalization autoscale vmin vmax colors,
     let s' := snd (setColormap name normalization autoscale vmin vmax colors s) in
     constructed s' /\ readable s')
  /\ (forall min_ max_,
        let s' := snd (setDataRange min_ max_ s) in
        constructed s' /\ readable s')
  /\ (forall hist bin_edges,
        let s' := snd (setHistogram hist bin_edges s) in
        constructed s' /\ readable s')
  /\ (let s' := snd (getHistogram s) in constructed s' /\ readable s')
  /\ (let s' := snd (getColormap s) in constructed s' /\ readable s')
  /\ (let s' := snd (click_autoscale s) in constructed s' /\ readable s')
  /\ (forall log,
        let s' := snd (click_norm log s) in constructed s' /\ readable s')
  /\ (let s' := snd (finish_editing s) in constructed s' /\ readable s').
Proof.
  intros Hc Hr.
  assert (K : forall A (m : M A),
             keeps m ->
             constructed (snd (m s)) /\ readable (snd (m s)))
    by (intros A m Hm; exact (kept_invariant s _ (Hm s) Hc Hr)).
  split; [intros; apply K, keeps_setColormap|].
  split; [intros; apply K, keeps_setDataRange|].
  split; [intros; apply K, keeps_setHistogram|].
  split; [apply K, keeps_getHistogram|].
  split; [apply K, keeps_getColormap|].
  split; [apply K, keeps_click_autoscale|].
  split; [intros; apply K, keeps_click_norm|].
  apply K, keeps_finish_editing.
Qed.

Lemma methods_keep_line_edits_readable_witness :
  readable (snd (setDataRange (PyFloat.lit "2.") (PyFloat.lit "20.") dialog0)).
Proof.
  destruct (methods_keep_line_edits_readable dialog0) as (_ & H & _).
  - reflexivity.
  - split; eexists; vm_compute; reflexivity.
  - apply (H (PyFloat.lit "2.") (PyFloat.lit "20.")).
Defined.
End Invariant.

(** ** Floats through a line edit *)

Section LineEdit.
Import ColormapDialog Qt.

(** X7. Each of these floats comes back from a line edit exactly as it
    was set: [1.], [10.], [2.5], [0.001], [123456.], [1e22], [1e-05],
    [1.23457], the negative zero and the two infinities. *)
Example setValue_then_value_short_floats :
  let floats :=
    map PyFloat.lit
      ["1."; "10."; "2.5"; "0.001"; "123456"; "1e+22"; "1e-05"; "1.23457";
       "-0.0"; "inf"; "-inf"] in
  map (fun v => _FloatEdit.value (_FloatEdit.setValue v (_FloatEdit.new None)))
    floats
  = map Some floats.
Proof. vm_compute. reflexivity. Qed.

(** X8. A float of more digits comes back rounded to six: [1.2345678] as
    [1.23457], [0.1234567] as [0.123457], [1234567.] as [1.23457e+06]. *)
Example setValue_then_value_long_floats :
  map (fun x => PyFloat.format_g (PyFloat.lit x))
    ["1.2345678"; "0.1234567"; "1234567."]
  = ["1.23457"; "0.123457"; "1.23457e+06"]
  /\ map (fun x =>
            _FloatEdit.value
              (_FloatEdit.setValue (PyFloat.lit x) (_FloatEdit.new None)))
       ["1.2345678"; "0.1234567"; "1234567."]
     = map (fun x => Some (PyFloat.lit x)) ["1.23457"; "0.123457"; "1234570."].
Proof. split; vm_compute; reflexivity. Qed.
End LineEdit.

(** ** The markers of the plot *)

Section Markers.
Import ColormapDialog Qt.

Lemma _plotUpdate_markers (s : state) (v w : PyFloat.t) :
  _FloatEdit.value (_startValue s) = Some v ->
  _FloatEdit.value (_endValue s) = Some w ->
  exists p,
    _plotUpdate s = (Ok tt, set_plot p s)
    /\ Plot.markers p !! "Start"
       = Some {| Plot.marker_x := v;
                 Plot.marker_draggable := negb (_rangeAutoscaleButton s) |}
    /\ Plot.markers p !! "End"
       = Some {| Plot.marker_x := w;
                 Plot.marker_draggable := negb (_rangeAutoscaleButton s) |}.
Proof.
  intros Hv Hw. unfold _plotUpdate.
  unfold bind at 1. unfold get at 1. cbv iota beta.
  destruct (getDataRange s) as [dataMin dataMax].
  unfold bind at 1. rewrite startValue_value_eq, Hv.
  unfold bind at 1. rewrite endValue_value_eq, Hw.
  destruct (PyFloat.lt v w); cbv beta iota; unfold bind, modify;
    rewrite startValue_value_eq; state_simpl; rewrite Hv;
    rewrite endValue_value_eq; state_simpl; rewrite Hw;
    (eexists; split; [reflexivity|]); state_simpl;
    cbn [Plot.markers Plot.insertXMarker Plot.addCurve];
    (split; [now rewrite lookup_insert_ne, lookup_insert_eq
            | now rewrite lookup_insert_eq]).
Qed.

Lemma markers_in_sync_plot (s : state) (v w : PyFloat.t) (p : Plot.PlotWidget) :
  _FloatEdit.value (_startValue s) = Some v ->
  _FloatEdit.value (_endValue s) = Some w ->
  Plot.markers p !! "Start"
  = Some {| Plot.marker_x := v;
            Plot.marker_draggable := negb (_rangeAutoscaleButton s) |} ->
  Plot.markers p !! "End"
  = Some {| Plot.marker_x := w;
            Plot.marker_draggable := negb (_rangeAutoscaleButton s) |} ->
  forall sig, markers_in_sync (set_sigColormapChanged sig (set_plot p s)).
Proof. intros Hv Hw Hs He sig. now exists v, w. Qed.

Lemma ends_in_sync_plotUpdate : ends_in_sync _plotUpdate.
Proof.
  intros s a s' Hrun.
  destruct (readable_cases s) as [(v & w & Hv & Hw)|Hn].
  - destruct (_plotUpdate_markers s v w Hv Hw) as (p & Hp & Hs & He).
    rewrite Hp in Hrun. injection Hrun as _ <-. now exists v, w.
  - rewrite (_plotUpdate_raises s Hn) in Hrun. discriminate.
Qed.

Lemma ends_in_sync_notify : ends_in_sync _notify.
Proof.
  intros s a s' Hrun.
  destruct (readable_cases s) as [(v & w & Hv & Hw)|Hn].
  - destruct (_plotUpdate_markers s v w Hv Hw) as (p & Hp & Hs & He).
    unfold _notify, bind at 1 in Hrun. rewrite Hp in Hrun.
    unfold bind in Hrun.
    rewrite (getColormap_ok (set_plot p s) v w Hv Hw) in Hrun.
    unfold modify in Hrun. injection Hrun as _ <-.
    now apply (markers_in_sync_plot s v w p).
  - rewrite (_notify_raises s Hn) in Hrun. discriminate.
Qed.

Lemma ends_in_sync_bind {A B} (m : M A) (k : A -> M B) :
  (forall a, ends_in_sync (k a)) -> ends_in_sync (bind m k).
Proof.
  intros Hk s b s' Hrun. unfold bind in Hrun.
  destruct (m s) as [[a|e] s1]; [|discriminate].
  exact (Hk a s1 b s' Hrun).
Qed.

Local Ltac sync_tail :=
  repeat first
    [ apply ends_in_sync_notify
    | apply ends_in_sync_plotUpdate
    | apply ends_in_sync_bind; intros ? ].

Lemma ends_in_sync_setDataRange (min_ max_ : PyFloat.t) :
  ends_in_sync (setDataRange min_ max_).
Proof.
  unfold setDataRange. do 3 (apply ends_in_sync_bind; intros ?).
  destruct (_rangeAutoscaleButton _); sync_tail.
Qed.

Lemma ends_in_sync_plotSlot (ev : plot_event) :
  contains (event ev) ["markerMoving"; "markerMoved"] = true ->
  ends_in_sync (_plotSlot ev).
Proof.
  intros Hk. unfold _plotSlot. rewrite Hk.
  apply ends_in_sync_bind; intros ?.
  destruct (String.eqb (event ev) "markerMoved"); sync_tail.
Qed.

(** X9. Whenever one of these returns normally, the plot's markers are
    in sync with the line edits: [Start] and [End] stand at vmin and
    vmax as [getColormap] reads them, and can be dragged exactly when
    autoscale is unchecked. This holds for [setColormap] with any
    arguments, [setDataRange], [setHistogram] with both arrays, a click
    on the autoscale box or on a normalization button, and the choice of
    a colormap in the combo box. *)
Theorem methods_leave_markers_in_sync (s : state) :
  (forall name normalization autoscale vmin vmax colors s',
     setColormap name normalization autoscale vmin vmax colors s = (Ok tt, s') ->
     markers_in_sync s')
  /\ (forall min_ max_ s',
        setDataRange min_ max_ s = (Ok tt, s') -> markers_in_sync s')
  /\ (forall hist bin_edges s',
        setHistogram (Some hist) (Some bin_edges) s = (Ok tt, s') ->
        markers_in_sync s')
  /\ (forall s', click_autoscale s = (Ok tt, s') -> markers_in_sync s')
  /\ (forall log s', click_norm log s = (Ok tt, s') -> markers_in_sync s')
  /\ (forall i s', activate i s = (Ok tt, s') -> markers_in_sync s').
Proof.
  split; [|split; [|split; [|split; [|split]]]].
  - intros name normalization autoscale vmin vmax colors s'.
    apply (ends_in_sync_bind _ _); intros ?.
    do 4 (apply ends_in_sync_bind; intros ?). apply ends_in_sync_notify.
  - intros min_ max_ s'. apply ends_in_sync_setDataRange.
  - intros hist bin_edges s'. unfold setHistogram.
    do 9 (apply (ends_in_sync_bind _ _); intros ?).
    apply ends_in_sync_setDataRange.
  - intros s'. unfold click_autoscale. sync_tail.
  - intros log s'. unfold click_norm. sync_tail.
  - intros i s'. unfold activate. sync_tail.
Qed.

Lemma methods_leave_markers_in_sync_witness :
  exists s',
    setDataRange (PyFloat.lit "2.") (PyFloat.lit "20.") dialog_manual
      = (Ok tt, s')
    /\ markers_in_sync s'.
Proof.
  destruct (methods_leave_markers_in_sync dialog_manual) as (_ & H & _).
  eexists. split; [vm_compute; reflexivity|].
  apply (H (PyFloat.lit "2.") (PyFloat.lit "20.")).
  vm_compute. reflexivity.
Defined.

(** X10. Dragging a marker. While the [Start] or [End] marker moves
    ([markerMoving]) its abscissa is written into its line edit (as
    ['%g'] text) and the plot is redrawn, and no notification is
    emitted; when it is dropped ([markerMoved]) the same is done and
    exactly one notification is emitted, the resulting description. The
    other line edit is left alone. Events of any other kind change
    nothing. *)
Theorem plotSlot_moves_marker (s : state) (ev : plot_event) :
  readable s ->
  (label ev = "Start" \/ label ev = "End" ->
   event ev = "markerMoving" \/ event ev = "markerMoved" ->
   exists s',
     _plotSlot ev s = (Ok tt, s')
     /\ text (_startValue s')
        = (if String.eqb (label ev) "Start"
           then PyFloat.format_g (xdata ev) else text (_startValue s))
     /\ text (_endValue s')
        = (if String.eqb (label ev) "Start"
           then text (_endValue s) else PyFloat.format_g (xdata ev))
     /\ markers_in_sync s'
     /\ if String.eqb (event ev) "markerMoved" then
          exists c,
            getColormap s' = (Ok c, s')
            /\ sigColormapChanged s' = sigColormapChanged s ++ [c]
        else sigColormapChanged s' = sigColormapChanged s)
  /\ (event ev <> "markerMoving" -> event ev <> "markerMoved" ->
      _plotSlot ev s = (Ok tt, s)).
Proof.
  intros [[v0 Hv0] [w0 Hw0]]. split.
  - intros Hlabel Hkind.
    destruct (float_format_g (xdata ev)) as [x Hx].
    assert (Hk : contains (event ev) ["markerMoving"; "markerMoved"] = true)
      by (destruct Hkind as [-> | ->]; reflexivity).
    unfold _plotSlot, float_of_str. rewrite Hk.
    destruct Hlabel as [Hl | Hl]; rewrite Hl;
      cbn [String.eqb Ascii.eqb Bool.eqb];
      unfold bind at 1; unfold modify at 1;
      destruct Hkind as [Hkd | Hkd]; rewrite Hkd;
      cbn [String.eqb Ascii.eqb Bool.eqb].
    all: match goal with
         | |- context [_notify ?S] =>
             edestruct (_notify_ok S) as (p & Hp & _);
               [ first [exact Hx | exact Hv0]
               | first [exact Hx | exact Hw0] |]
         | |- context [_plotUpdate ?S] =>
             edestruct (_plotUpdate_ok S) as (p & Hp & _);
               [ first [exact Hx | exact Hv0]
               | first [exact Hx | exact Hw0] |]
         end.
    all: rewrite Hp; eexists; split; [reflexivity|].
    all: split; [reflexivity|]; split; [reflexivity|].
    all: split;
           [ eapply (ends_in_sync_plotSlot ev Hk s tt);
             unfold _plotSlot, float_of_str; rewrite Hk, Hl, Hkd;
             cbn [String.eqb Ascii.eqb Bool.eqb];
             unfold bind at 1; unfold modify at 1; exact Hp |].
    all: try reflexivity.
    all: eexists; split;
           [ apply getColormap_ok;
               [ first [exact Hx | exact Hv0] | first [exact Hx | exact Hw0] ]
           | reflexivity ].
  - intros H1 H2. unfold _plotSlot.
    replace (contains (event ev) ["markerMoving"; "markerMoved"]) with false;
      [reflexivity|].
    symmetry. apply not_contains_In. intros [E|[E|[]]]; congruence.
Qed.

Lemma plotSlot_moves_marker_witness :
  exists s',
    _plotSlot {| event := "markerMoved"; label := "End";
                 xdata := PyFloat.lit "7.5" |} dialog_manual = (Ok tt, s')
    /\ text (_endValue s') = PyFloat.format_g (PyFloat.lit "7.5").
Proof.
  destruct (plotSlot_moves_marker dialog_manual
              {| event := "markerMoved"; label := "End";
                 xdata := PyFloat.lit "7.5" |}) as [H _].
  - split; eexists; vm_compute; reflexivity.
  - destruct H as (s' & Hrun & _ & Hend & _).
    + right. reflexivity.
    + right. reflexivity.
    + exists s'. split; assumption.
Defined.

(** X11. Choosing a colormap in the combo box selects it and emits
    exactly one notification, whose name is the name [_colormapList]
    has at that place: the label shown, back in lower case. *)
Theorem activate_selects (s : state) (i : nat) (name : string) :
  constructed s ->
  readable s ->
  _colormapList !! i = Some name ->
  exists s' c,
    activate (Z.of_nat i) s = (Ok tt, s')
    /\ getColormap s' = (Ok c, s')
    /\ Colormap.name c = name
    /\ sigColormapChanged s' = sigColormapChanged s ++ [c].
Proof.
  intros Hc [[v Hv] [w Hw]] Hi.
  assert (Hin : contains name _colormapList = true).
  { apply contains_In. apply list_elem_of_In. eapply list_elem_of_lookup_2.
    exact Hi. }
  destruct (colormap_name name Hin) as (_ & _ & _ & Hlower).
  assert (Hlabel : map PyStr.capitalize_words _colormapList !! i
                   = Some (PyStr.capitalize_words name)).
  { change (map PyStr.capitalize_words _colormapList)
      with (PyStr.capitalize_words <$> _colormapList).
    now rewrite list_lookup_fmap, Hi. }
  unfold activate, bind at 1, modify at 1.
  match goal with |- context [_notify ?S] =>
    destruct (_notify_ok S v w) as (p & Hp & _);
      [exact Hv | exact Hw | rewrite Hp; clear Hp]
  end.
  eexists _, _. split; [reflexivity|].
  split; [apply getColormap_ok; [exact Hv | exact Hw]|].
  unfold description; cbn [Colormap.name]; state_simpl.
  rewrite (currentText_setCurrentIndex s i _ Hc Hlabel), Hlower.
  split; reflexivity.
Qed.

Lemma activate_selects_witness :
  exists s' c,
    activate 2 dialog0 = (Ok tt, s')
    /\ getColormap s' = (Ok c, s')
    /\ Colormap.name c = "temperature".
Proof.
  destruct (activate_selects dialog0 2 "temperature")
    as (s' & c & Hrun & Hget & Hname & _).
  - reflexivity.
  - split; eexists; vm_compute; reflexivity.
  - reflexivity.
  - exists s', c. repeat split; assumption.
Defined.
End Markers.

(** ** Widgets that stay consistent *)

Section Consistency.
Import ColormapDialog Qt.

Lemma kc_ret {A} (a : A) : keeps_consistent (ret a).
Proof. intros s H. exact H. Qed.

Lemma kc_raise {A} (e : exn) : keeps_consistent (@raise A e).
Proof. intros s H. exact H. Qed.

Lemma kc_get : keeps_consistent get.
Proof. intros s H. exact H. Qed.

Lemma kc_bind {A B} (m : M A) (k : A -> M B) :
  keeps_consistent m -> (forall a, keeps_consistent (k a)) ->
  keeps_consistent (bind m k).
Proof.
  intros Hm Hk s H. unfold bind. specialize (Hm s H).
  destruct (m s) as [[a|e] s1]; cbn [snd] in *; [|exact Hm].
  now apply Hk.
Qed.

Lemma kc_modify (f : state -> state) :
  (forall s, widgets_consistent s -> widgets_consistent (f s)) ->
  keeps_consistent (modify f).
Proof. intros H s. apply H. Qed.

Lemma kc_assert (b : bool) : keeps_consistent (assert b).
Proof. destruct b; [apply kc_ret | apply kc_raise]. Qed.

Lemma kc_from_option {A} (e : exn) (o : option A) :
  keeps_consistent (from_option e o).
Proof. destruct o; [apply kc_ret | apply kc_raise]. Qed.

Local Ltac kc_step :=
  first
    [ apply kc_bind; [|intros ?]
    | apply kc_ret
    | apply kc_raise
    | apply kc_get
    | apply kc_assert
    | apply kc_from_option
    | apply kc_modify; intros ?; unfold widgets_consistent; state_simpl;
      cbn [_FloatEdit.setValue setText isEnabled]; solve [auto] ].

Lemma kc_plotUpdate : keeps_consistent _plotUpdate.
Proof.
  unfold _plotUpdate, startValue_value, endValue_value.
  apply kc_bind; [apply kc_get | intros s0].
  destruct (getDataRange s0).
  apply kc_bind; [repeat kc_step | intros v].
  apply kc_bind; [repeat kc_step | intros w].
  destruct (PyFloat.lt v w); repeat kc_step.
Qed.

Lemma kc_notify : keeps_consistent _notify.
Proof.
  unfold _notify, getColormap, startValue_value, endValue_value.
  repeat first [apply kc_plotUpdate | kc_step].
Qed.

Lemma kc_rangeAutoscaleButton_setChecked (b : bool) :
  keeps_consistent (rangeAutoscaleButton_setChecked b).
Proof.
  intros s (Hs & He & Hn). rewrite rangeAutoscaleButton_setChecked_eq.
  cbn [snd]. destruct (Bool.eqb (_rangeAutoscaleButton s) b);
    [now split|].
  destruct b; unfold widgets_consistent; state_simpl;
    cbn [_FloatEdit.setValue setText setEnabled isEnabled negb]; auto.
Qed.

Lemma kc_setDataRange (min_ max_ : PyFloat.t) :
  keeps_consistent (setDataRange min_ max_).
Proof.
  unfold setDataRange.
  do 2 (apply kc_bind; [kc_step | intros ?]).
  apply kc_bind; [apply kc_get | intros s0].
  destruct (_rangeAutoscaleButton s0);
    repeat first [apply kc_notify | apply kc_plotUpdate | kc_step].
Qed.

Lemma kc_setChecked_exclusive (checked : bool) :
  keeps_consistent
    (modify (fun s =>
       set_normButtons
         (setChecked_exclusive checked (_normButtonLinear s) (_normButtonLog s))
         s)).
Proof.
  intros s (Hs & He & Hn). unfold modify, widgets_consistent. cbn [snd].
  state_simpl. repeat split; try assumption.
  unfold setChecked_exclusive.
  destruct (_normButtonLinear s), checked; cbn; auto.
Qed.

Lemma kc_setColormap (name normalization : option string)
    (autoscale : option bool) (vmin vmax : option PyFloat.t)
    (colors : option Z) :
  keeps_consistent (setColormap name normalization autoscale vmin vmax colors).
Proof.
  unfold setColormap.
  destruct name, normalization, autoscale, vmin, vmax;
    repeat first [apply kc_notify | apply kc_rangeAutoscaleButton_setChecked
                 | apply kc_setChecked_exclusive | kc_step].
Qed.

Lemma kc_setHistogram (hist bin_edges : option positive) :
  keeps_consistent (setHistogram hist bin_edges).
Proof.
  unfold setHistogram, elements, numpy_array.
  destruct hist, bin_edges; repeat first [apply kc_setDataRange | kc_step].
Qed.

Lemma kc_getHistogram : keeps_consistent getHistogram.
Proof.
  unfold getHistogram, numpy_array.
  apply kc_bind; [apply kc_get | intros s0].
  destruct (_histogramData s0) as [[bins counts]|]; repeat kc_step.
Qed.

Lemma kc_click_autoscale : keeps_consistent click_autoscale.
Proof.
  unfold click_autoscale.
  repeat first [apply kc_notify | apply kc_rangeAutoscaleButton_setChecked
               | kc_step].
Qed.

Lemma kc_click_norm (log : bool) : keeps_consistent (click_norm log).
Proof.
  unfold click_norm. apply kc_bind; [|intros ?; apply kc_notify].
  apply kc_modify. intros s (Hs & He & _). unfold widgets_consistent.
  state_simpl. repeat split; try assumption. now destruct log.
Qed.

Lemma kc_activate (i : Z) : keeps_consistent (activate i).
Proof. unfold activate. repeat first [apply kc_notify | kc_step]. Qed.

Lemma kc_edit_text (f : field) (t : string) : keeps_consistent (edit_text f t).
Proof.
  unfold edit_text, _minMaxTextEdited. destruct f; repeat kc_step.
Qed.

Lemma kc_finish_editing : keeps_consistent finish_editing.
Proof.
  unfold finish_editing, _minMaxEditingFinished.
  apply kc_bind; [apply kc_get | intros s0].
  destruct (_minMaxWasEdited s0); repeat first [apply kc_notify | kc_step].
Qed.

Lemma kc_plotSlot (ev : plot_event) : keeps_consistent (_plotSlot ev).
Proof.
  unfold _plotSlot.
  destruct (contains _ _); [|apply kc_ret].
  apply kc_bind; [|intros ?].
  - destruct (String.eqb (label ev) "Start"); [kc_step|].
    destruct (String.eqb (label ev) "End"); kc_step.
  - destruct (String.eqb (event ev) "markerMoved");
      [apply kc_notify | apply kc_plotUpdate].
Qed.

(** X12. The new dialog has its widgets consistent: the two line edits
    are enabled exactly when autoscale is unchecked, and exactly one
    normalization button is checked. Every method, click, keystroke and
    marker event keeps them so, with any arguments and whether it
    returns or raises. *)
Theorem widgets_stay_consistent :
  widgets_consistent dialog0
  /\ forall s,
       widgets_consistent s ->
       (forall name normalization autoscale vmin vmax colors,
          widgets_consistent
            (snd (setColormap name normalization autoscale vmin vmax colors s)))
       /\ (forall min_ max_, widgets_consistent (snd (setDataRange min_ max_ s)))
       /\ (forall hist bin_edges,
             widgets_consistent (snd (setHistogram hist bin_edges s)))
       /\ widgets_consistent (snd (getHistogram s))
       /\ widgets_consistent (snd (click_autoscale s))
       /\ (forall log, widgets_consistent (snd (click_norm log s)))
       /\ (forall i, widgets_consistent (snd (activate i s)))
       /\ (forall f t, widgets_consistent (snd (edit_text f t s)))
       /\ widgets_consistent (snd (finish_editing s))
       /\ (forall ev, widgets_consistent (snd (_plotSlot ev s))).
Proof.
  split; [repeat split|].
  intros s H.
  split; [intros; now apply kc_setColormap|].
  split; [intros; now apply kc_setDataRange|].
  split; [intros; now apply kc_setHistogram|].
  split; [now apply kc_getHistogram|].
  split; [now apply kc_click_autoscale|].
  split; [intros; now apply kc_click_norm|].
  split; [intros; now apply kc_activate|].
  split; [intros; now apply kc_edit_text|].
  split; [now apply kc_finish_editing|].
  intros; now apply kc_plotSlot.
Qed.

Lemma widgets_stay_consistent_witness :
  widgets_consistent
    (snd (setColormap None None (Some false) None None None dialog0)).
Proof.
  destruct widgets_stay_consistent as [H0 H].
  destruct (H dialog0 H0) as [Hset _].
  apply (Hset None None (Some false) None None None).
Defined.
End Consistency.

(** ** Failures and what they leave behind *)

Section Failures.
Import ColormapDialog Qt.

(** X13. A NaN bound is rejected: [setDataRange] with a NaN as minimum
    or as maximum raises the assertion error, whatever the other bound,
    and leaves the state as it was. *)
Theorem setDataRange_rejects_nan (s : state) (x : PyFloat.t) :
  setDataRange PyFloat.nan x s = (Raise AssertionError, s)
  /\ setDataRange x PyFloat.nan s = (Raise AssertionError, s).
Proof.
  unfold setDataRange, bind.
  replace (PyFloat.le x PyFloat.nan) with false by (now destruct x).
  split; reflexivity.
Qed.

(** X14. [setDataRange] while autoscale is unchecked and a line edit
    holds no float (the user is typing) raises [ValueError] out of
    [_plotUpdate], after it has stored the new data range: the range is
    replaced, and the plot, the line edits and the notifications are as
    they were. *)
Theorem setDataRange_unreadable (s : state) (min_ max_ : PyFloat.t) :
  PyFloat.le min_ max_ = true ->
  _rangeAutoscaleButton s = false ->
  ~ readable s ->
  setDataRange min_ max_ s = (Raise ValueError, set_dataRange (min_, max_) s).
Proof.
  intros Hle Ha Hn. unfold setDataRange, bind at 1. rewrite Hle.
  unfold assert, ret, bind at 1, modify at 1, bind at 1, get.
  state_simpl. rewrite Ha.
  now apply _plotUpdate_raises.
Qed.

Lemma setDataRange_unreadable_witness :
  setDataRange (PyFloat.lit "2.") (PyFloat.lit "20.") dialog_typing
  = (Raise ValueError,
     set_dataRange (PyFloat.lit "2.", PyFloat.lit "20.") dialog_typing).
Proof.
  apply (setDataRange_unreadable dialog_typing).
  - vm_compute. reflexivity.
  - reflexivity.
  - intros [[v Hv] _]. vm_compute in Hv. discriminate.
Defined.

(** X15. Finishing an edit while a line edit holds no float raises
    [ValueError] and emits nothing, but the edit is no longer pending:
    finishing again, without a keystroke in between, does nothing at
    all. *)
Theorem finish_editing_unreadable (s : state) :
  _minMaxWasEdited s = true ->
  ~ readable s ->
  finish_editing s = (Raise ValueError, set_minMaxWasEdited false s)
  /\ finish_editing (set_minMaxWasEdited false s)
     = (Ok tt, set_minMaxWasEdited false s).
Proof.
  intros Hflag Hn. unfold finish_editing, _minMaxEditingFinished.
  split.
  - unfold bind at 1, get. rewrite Hflag. unfold bind at 1, modify.
    now apply _notify_raises.
  - reflexivity.
Qed.

Lemma finish_editing_unreadable_witness :
  finish_editing dialog_typing
  = (Raise ValueError, set_minMaxWasEdited false dialog_typing).
Proof.
  apply (finish_editing_unreadable dialog_typing).
  - reflexivity.
  - intros [[v Hv] _]. vm_compute in Hv. discriminate.
Defined.

(** [setHistogram] with both arrays, up to the normalisation of the
    counts: the copies are stored, whatever comes next. *)
Lemma setHistogram_prefix
    (s : state) (hist bin_edges : positive) (counts edges : list PyFloat.t) :
  memory s !! hist = Some counts ->
  memory s !! bin_edges = Some edges ->
  exists a b m,
    m !! a = Some counts /\ m !! b = Some edges
    /\ setHistogram (Some hist) (Some bin_edges) s =
         (top <- from_option ValueError (Numpy.max counts) ;;
          modify (fun s =>
            set_plot
              (Plot.addCurve
                 (map (PyFloat.mul f0_5)
                    (zip_with PyFloat.add (removelast edges) (tail edges)))
                 (map (fun c => PyFloat.div c top) counts) "Histogram"
                 (_plot s)) s) ;;
          first <- from_option IndexError (head edges) ;;
          last_ <- from_option IndexError (last edges) ;;
          setDataRange first last_)
           (set_histogramData (Some (a, b)) (set_memory m s)).
Proof.
  intros Hh He.
  set (a := Numpy.new_ref (memory s)).
  set (m1 := <[a := counts]> (memory s)).
  set (b := Numpy.new_ref m1).
  assert (He1 : m1 !! bin_edges = Some edges).
  { subst m1. rewrite lookup_insert_ne; [assumption|].
    eapply new_ref_ne; eassumption. }
  assert (Ha1 : m1 !! a = Some counts)
    by (subst m1; now rewrite lookup_insert_eq).
  assert (Hba : b <> a) by (eapply new_ref_ne; eassumption).
  assert (Ha2 : <[b := edges]> m1 !! a = Some counts)
    by now rewrite lookup_insert_ne.
  assert (Hb2 : <[b := edges]> m1 !! b = Some edges)
    by now rewrite lookup_insert_eq.
  exists a, b, (<[b := edges]> m1).
  split; [exact Ha2|]. split; [exact Hb2|].
  subst b m1 a. unfold setHistogram.
  unfold bind at 1. rewrite (numpy_array_eq hist counts s Hh).
  unfold bind at 1.
  rewrite (numpy_array_eq bin_edges edges (set_memory _ s) He1).
  unfold bind at 1, modify at 1. state_simpl.
  unfold bind at 1.
  rewrite (elements_eq _ counts (set_histogramData _ (set_memory _ s)) Ha2).
  unfold bind at 1.
  rewrite (elements_eq _ edges (set_histogramData _ (set_memory _ s)) Hb2).
  reflexivity.
Qed.

(** X16. [setHistogram] stores the copies of both arrays before it can
    fail. In each of these three failures [getHistogram] would return
    the arrays just passed, and the line edits and the notifications are
    as before the call. With counts of no element it raises [ValueError]
    (from [max]) before the curve is drawn: the plot and the data range
    are as before. With some counts and one more edge, whose first edge
    is not at most the last (a NaN edge included), it raises the
    assertion error of [setDataRange] after the curve was drawn: the
    data range is as before. With some counts, the first edge at most
    the last, autoscale unchecked and a line edit that holds no float,
    it raises [ValueError] out of [_plotUpdate] after the curve was
    drawn and the data range replaced by the two edges. *)
Theorem setHistogram_failures
    (s : state) (hist bin_edges : positive) (counts edges : list PyFloat.t) :
  memory s !! hist = Some counts ->
  memory s !! bin_edges = Some edges ->
  let stored (e : exn) (s' : state) :=
    setHistogram (Some hist) (Some bin_edges) s = (Raise e, s')
    /\ (exists a b,
          _histogramData s' = Some (a, b)
          /\ memory s' !! a = Some counts
          /\ memory s' !! b = Some edges)
    /\ _startValue s' = _startValue s
    /\ _endValue s' = _endValue s
    /\ sigColormapChanged s' = sigColormapChanged s in
  (counts = [] ->
   exists s', stored ValueError s'
              /\ _plot s' = _plot s
              /\ getDataRange s' = getDataRange s)
  /\ (forall first last_,
        counts <> [] ->
        length edges = S (length counts) ->
        head edges = Some first -> last edges = Some last_ ->
        PyFloat.le first last_ = false ->
        exists s', stored AssertionError s'
                   /\ is_Some (Plot.curves (_plot s') !! "Histogram")
                   /\ getDataRange s' = getDataRange s)
  /\ (forall first last_,
        counts <> [] ->
        head edges = Some first -> last edges = Some last_ ->
        PyFloat.le first last_ = true ->
        _rangeAutoscaleButton s = false ->
        ~ readable s ->
        exists s', stored ValueError s'
                   /\ is_Some (Plot.curves (_plot s') !! "Histogram")
                   /\ getDataRange s' = (first, last_)).
Proof.
  intros Hh He stored. subst stored.
  destruct (setHistogram_prefix s hist bin_edges counts edges Hh He)
    as (a & b & m & Ha & Hb & Hrun).
  rewrite Hrun. clear Hrun.
  split; [|split].
  - intros ->. eexists. split; [|split].
    + split; [reflexivity|]. split; [now exists a, b|]. now repeat split.
    + reflexivity.
    + reflexivity.
  - intros first last_ Hne _ Hfirst Hlast Hle.
    destruct counts as [|c counts]; [contradiction|].
    unfold bind at 1. cbn [Numpy.max from_option ret].
    unfold bind at 1, modify at 1.
    unfold bind at 1. rewrite Hfirst. cbn [from_option ret].
    unfold bind at 1. rewrite Hlast. cbn [from_option ret].
    unfold setDataRange, bind at 1. rewrite Hle. unfold assert, raise.
    eexists. split; [|split].
    + split; [reflexivity|]. split; [now exists a, b|]. now repeat split.
    + state_simpl. unfold Plot.addCurve. cbn [Plot.curves].
      rewrite lookup_insert_eq. eexists. reflexivity.
    + reflexivity.
  - intros first last_ Hne Hfirst Hlast Hle Hauto Hn.
    destruct counts as [|c counts]; [contradiction|].
    unfold bind at 1. cbn [Numpy.max from_option ret].
    unfold bind at 1, modify at 1.
    unfold bind at 1. rewrite Hfirst. cbn [from_option ret].
    unfold bind at 1. rewrite Hlast. cbn [from_option ret].
    rewrite (setDataRange_raises _ first last_ Hle); [|exact Hauto|exact Hn].
    eexists. split; [|split].
    + split; [reflexivity|]. split; [now exists a, b|]. now repeat split.
    + state_simpl. unfold Plot.addCurve. cbn [Plot.curves].
      rewrite lookup_insert_eq. eexists. reflexivity.
    + reflexivity.
Qed.

Lemma setHistogram_failures_witness :
  exists s',
    setHistogram (Some 1%positive) (Some 2%positive)
      (set_memory arrays dialog_typing) = (Raise ValueError, s')
    /\ getDataRange s' = (PyFloat.lit "0", PyFloat.lit "3").
Proof.
  destruct (setHistogram_failures (set_memory arrays dialog_typing)
              1%positive 2%positive
              [PyFloat.lit "1"; PyFloat.lit "2"; PyFloat.lit "3"]
              [PyFloat.lit "0"; PyFloat.lit "1"; PyFloat.lit "2";
               PyFloat.lit "3"])
    as (_ & _ & H).
  - vm_compute. reflexivity.
  - vm_compute. reflexivity.
  - destruct (H (PyFloat.lit "0") (PyFloat.lit "3"))
      as (s' & (Hrun & _) & _ & Hrange).
    + discriminate.
    + vm_compute. reflexivity.
    + vm_compute. reflexivity.
    + vm_compute. reflexivity.
    + reflexivity.
    + intros [[v Hv] _]. vm_compute in Hv. discriminate.
    + exists s'. split; assumption.
Defined.
End Failures.

(** ** Round trips *)

Section RoundTrips.
Import ColormapDialog Qt.

(** X17. [getHistogram] hands out private copies: the two arrays it
    returns are new ones, distinct from each other and from every array
    there was; nothing but the memory changes; and whatever the caller
    then writes into them, the next [getHistogram] returns the counts
    and edges unchanged. *)
Theorem getHistogram_returns_private_copies
    (s : state) (a b : positive) (counts edges : list PyFloat.t) :
  _histogramData s = Some (a, b) ->
  memory s !! a = Some counts ->
  memory s !! b = Some edges ->
  exists a' b' s',
    getHistogram s = (Ok (Some (a', b')), s')
    /\ memory s' !! a' = Some counts
    /\ memory s' !! b' = Some edges
    /\ memory s !! a' = None /\ memory s !! b' = None /\ a' <> b'
    /\ (forall l, l <> a' -> l <> b' -> memory s' !! l = memory s !! l)
    /\ s' = set_memory (memory s') s
    /\ forall m : gmap positive (list PyFloat.t),
         (forall l, l <> a' -> l <> b' -> m !! l = memory s' !! l) ->
         exists a'' b'' s'',
           getHistogram (set_memory m s') = (Ok (Some (a'', b'')), s'')
           /\ memory s'' !! a'' = Some counts
           /\ memory s'' !! b'' = Some edges.
Proof.
  intros Hd Ha Hb.
  destruct (getHistogram_eq s a b counts edges Hd Ha Hb)
    as (Hrun & Ha' & Hb' & Hfa & Hfb).
  set (a' := Numpy.new_ref (memory s)) in *.
  set (b' := Numpy.new_ref (<[a' := counts]> (memory s))) in *.
  assert (Hab : a' <> b').
  { intros E. rewrite <- E in Hb'. rewrite E in Ha'.
    assert (F : <[a' := counts]> (memory s) !! b' = None)
      by apply new_ref_fresh.
    rewrite <- E, lookup_insert_eq in F. discriminate. }
  assert (Haa : a <> a') by (intros ->; rewrite Hfa in Ha; discriminate).
  assert (Hab' : a <> b') by (intros ->; rewrite Hfb in Ha; discriminate).
  assert (Hba : b <> a') by (intros ->; rewrite Hfa in Hb; discriminate).
  assert (Hbb : b <> b') by (intros ->; rewrite Hfb in Hb; discriminate).
  exists a', b', (set_memory (<[b' := edges]> (<[a' := counts]> (memory s))) s).
  split; [exact Hrun|]. state_simpl.
  split; [exact Ha'|]. split; [exact Hb'|].
  split; [exact Hfa|]. split; [exact Hfb|]. split; [exact Hab|].
  assert (Hframe : forall l, l <> a' -> l <> b' ->
            <[b' := edges]> (<[a' := counts]> (memory s)) !! l
            = memory s !! l).
  { intros l Hla Hlb. now rewrite !lookup_insert_ne. }
  split; [exact Hframe|]. split; [reflexivity|].
  intros m Hm.
  match goal with |- context [getHistogram ?S] =>
    destruct (getHistogram_eq S a b counts edges) as (Hrun2 & Ha2 & Hb2 & _)
  end.
  - exact Hd.
  - state_simpl. now rewrite Hm, Hframe.
  - state_simpl. now rewrite Hm, Hframe.
  - eexists _, _, _. split; [exact Hrun2|]. state_simpl.
    split; [exact Ha2 | exact Hb2].
Qed.

Lemma getHistogram_returns_private_copies_witness :
  exists a' b' s',
    getHistogram dialog_histogram = (Ok (Some (a', b')), s')
    /\ memory dialog_histogram !! a' = None
    /\ memory dialog_histogram !! b' = None.
Proof.
  destruct (getHistogram_returns_private_copies dialog_histogram
              4%positive 5%positive
              [PyFloat.lit "1"; PyFloat.lit "2"; PyFloat.lit "3"]
              [PyFloat.lit "0"; PyFloat.lit "1"; PyFloat.lit "2";
               PyFloat.lit "3"])
    as (a' & b' & s' & Hrun & _ & _ & Ha & Hb & _).
  - reflexivity.
  - vm_compute. reflexivity.
  - vm_compute. reflexivity.
  - exists a', b', s'. repeat split; assumption.
Defined.

(** The colormap selected in a combo box of the dialog's items. *)
Lemma current_name (cb : QComboBox) :
  items cb = map PyStr.capitalize_words _colormapList ->
  (0 <= currentIndex cb < Z.of_nat (length _colormapList))%Z ->
  contains (PyStr.lower (currentText cb)) _colormapList = true
  /\ (exists i,
        index (PyStr.lower (currentText cb)) _colormapList = Some i
        /\ setCurrentIndex (Z.of_nat i) cb = cb).
Proof.
  destruct cb as [its ci]. cbn [items currentIndex]. intros -> Hi.
  assert (Hn : ci = Z.of_nat (Z.to_nat ci)) by lia.
  assert (Hlt : (Z.to_nat ci < 6)%nat) by (cbn in Hi; lia).
  rewrite Hn. clear Hn Hi.
  destruct (Z.to_nat ci) as [|[|[|[|[|[|n]]]]]]; try lia;
    (split; [vm_compute; reflexivity|]);
    eexists; (split; [vm_compute; reflexivity|]); vm_compute; reflexivity.
Qed.

(** X18. A description read with [getColormap] can be set back: while a
    colormap is selected, [setColormap] with the name, the normalization
    (['log'] too) and the autoscale flag that [getColormap] returned
    changes no widget and no attribute, redraws the plot and emits that
    same description once more. *)
Theorem setColormap_restores_description (s : state) (c : Colormap.t) :
  constructed s ->
  (0 <= currentIndex (_comboBoxColormap s)
   < Z.of_nat (length _colormapList))%Z ->
  getColormap s = (Ok c, s) ->
  exists p,
    setColormap (Some (Colormap.name c)) (Some (Colormap.normalization c))
      (Some (Colormap.autoscale c)) None None None s
    = (Ok tt,
       set_sigColormapChanged (sigColormapChanged s ++ [c]) (set_plot p s)).
Proof.
  intros Hc Hi Hget.
  apply getColormap_inv in Hget as (v & w & Hv & Hw & -> & _).
  destruct (current_name (_comboBoxColormap s) Hc Hi)
    as (Hname & i & Hindex & Hset).
  unfold description at 1 2 3.
  cbn [Colormap.name Colormap.normalization Colormap.autoscale].
  unfold setColormap.
  unfold bind at 1. unfold bind at 1. rewrite Hname.
  unfold assert, ret at 1. unfold bind at 1. rewrite Hindex.
  unfold from_option, ret at 1, modify at 1. rewrite Hset.
  unfold bind at 1. unfold bind at 1.
  replace (contains (if _normButtonLinear s then "linear" else "log")
             ["linear"; "log"]) with true
    by (destruct (_normButtonLinear s); reflexivity).
  unfold ret at 1, modify at 1.
  unfold bind at 1. rewrite rangeAutoscaleButton_setChecked_eq.
  state_simpl. rewrite Bool.eqb_reflx.
  unfold bind at 1, ret at 1, bind at 1, ret at 1.
  assert (Hs : set_normButtons
                 (setChecked_exclusive
                    (String.eqb (if _normButtonLinear s then "linear" else "log")
                       "linear")
                    (_normButtonLinear s) (_normButtonLog s))
                 (set_comboBoxColormap (_comboBoxColormap s) s) = s).
  { destruct s as [? ? ? ? [] ? ? ? ? ? ? ?]; reflexivity. }
  state_simpl. rewrite Hs.
  destruct (_notify_ok s v w Hv Hw) as (p & Hp & _).
  exists p. exact Hp.
Qed.

Lemma setColormap_restores_description_witness :
  exists c p,
    getColormap dialog0 = (Ok c, dialog0)
    /\ setColormap (Some (Colormap.name c)) (Some (Colormap.normalization c))
         (Some (Colormap.autoscale c)) None None None dialog0
       = (Ok tt,
          set_sigColormapChanged (sigColormapChanged dialog0 ++ [c])
            (set_plot p dialog0)).
Proof.
  exists (description dialog0 (PyFloat.lit "1") (PyFloat.lit "10")).
  destruct (setColormap_restores_description dialog0
              (description dialog0 (PyFloat.lit "1") (PyFloat.lit "10")))
    as [p Hp].
  - reflexivity.
  - cbn. lia.
  - vm_compute. reflexivity.
  - exists p. split; [vm_compute; reflexivity | exact Hp].
Defined.
End RoundTrips.
